(** * Distance-based quantum classifier (forest_version/11_Kernel_Methods.ipynb)

    A shallow embedding of the notebook's Python code:
    - [get_angle] (cell 8), the angle encoder;
    - [prepare_state] (cell 12) and [interfere_data_and_test_instances]
      (cell 21), which build a pyQuil [Program] by appending instructions;
    - [postselect] (cell 25), the post-selection estimator, which prints;
    - the top-level cells 1, 10, 15, 18, 23, 27, 29, 30 and 31 as one
      [session].

    Conventions of the embedding.
    - A Python exception is a value [Raise e] of the type [result].
    - A float64 is a real number or [NaN]; rounding is not modelled.
    - A Python [int] is a [Z]; the true division [/] of two ints is an
      exact rational of [Q], or [OverflowError] when the quotient is too
      large for a float (rounding is not modelled).
    - [postselect] reads the counts of its argument as Python ints;
      [postselect_np] is the same function on counts that are
      numpy.int64 values, the type of the counts of cells 27 and 30,
      and the one that [session] calls.
    - A [dict] with string keys is a [gmap string _].
    - Code that prints or touches the simulator processes runs in the
      state-and-exception monad [Py] over [world]. *)

From Stdlib Require Import ZArith QArith Reals Lra Lia Ascii String.
From stdpp Require Import gmap strings list fin_maps pretty.

Local Open Scope Z_scope.

(** ** Python exceptions *)

Inductive exn : Type :=
| IndexError
| ZeroDivisionError
| ValueError
| ExecutionError
| OverflowError.

Inductive result (A : Type) : Type :=
| Ok (a : A)
| Raise (e : exn).
Arguments Ok {A} a.
Arguments Raise {A} e.

#[global] Instance result_ret : MRet result := λ A a, Ok a.
#[global] Instance result_bind : MBind result := λ A B k r,
  match r with
  | Ok a => k a
  | Raise e => Raise e
  end.

(** ** Cell 8: the angle encoder *)

(** A float64 value, as far as the encoder is concerned. *)
Inductive np_float : Type :=
| Finite (r : R)
| NaN.

(** [np.arccos] on a real scalar.  NumPy does not raise outside [-1, 1]:
    the result is [nan] (and, under the default error state, a
    [RuntimeWarning] is emitted). *)
Definition np_arccos (x : np_float) : result np_float :=
  match x with
  | Finite r =>
      if Rle_dec (-1) r then
        if Rle_dec r 1 then Ok (Finite (acos r)) else Ok NaN
      else Ok NaN
  | NaN => Ok NaN
  end.

(** [2 * y] for the Python int [2] and a float64 [y]. *)
Definition np_mul2 (y : np_float) : np_float :=
  match y with
  | Finite r => Finite (2 * r)%R
  | NaN => NaN
  end.

(** [def get_angle(amplitude_0): return 2*np.arccos(amplitude_0)] *)
Definition get_angle (amplitude_0 : np_float) : result np_float :=
  y ← np_arccos amplitude_0;
  mret (np_mul2 y).

(** ** Cell 3: the two user-defined gates *)

(** Quil parameter expressions, as far as the two matrices use them. *)
Inductive quil_expr : Type :=
| Num (z : Z)
| Parameter_ (name : string)
| Half (e : quil_expr)
| quil_cos (e : quil_expr)
| quil_sin (e : quil_expr)
| Neg (e : quil_expr).

Record DefGate : Type := mkDefGate {
  gate_name : string;
  gate_matrix : list (list quil_expr);
  gate_parameters : list quil_expr
}.

Definition theta : quil_expr := Parameter_ "theta".

Definition cry : list (list quil_expr) :=
  [ [Num 1; Num 0; Num 0; Num 0];
    [Num 0; Num 1; Num 0; Num 0];
    [Num 0; Num 0; quil_cos (Half theta); Neg (quil_sin (Half theta))];
    [Num 0; Num 0; quil_sin (Half theta); quil_cos (Half theta)] ].

Definition cry_definition : DefGate := mkDefGate "CRY" cry [theta].

Definition alpha : quil_expr := Parameter_ "alpha".

Definition ccry : list (list quil_expr) :=
  [ [Num 1; Num 0; Num 0; Num 0; Num 0; Num 0; Num 0; Num 0];
    [Num 0; Num 1; Num 0; Num 0; Num 0; Num 0; Num 0; Num 0];
    [Num 0; Num 0; Num 1; Num 0; Num 0; Num 0; Num 0; Num 0];
    [Num 0; Num 0; Num 0; Num 1; Num 0; Num 0; Num 0; Num 0];
    [Num 0; Num 0; Num 0; Num 0; Num 1; Num 0; Num 0; Num 0];
    [Num 0; Num 0; Num 0; Num 0; Num 0; Num 1; Num 0; Num 0];
    [Num 0; Num 0; Num 0; Num 0; Num 0; Num 0;
       quil_cos (Half alpha); Neg (quil_sin (Half alpha))];
    [Num 0; Num 0; Num 0; Num 0; Num 0; Num 0;
       quil_sin (Half alpha); quil_cos (Half alpha)] ].

Definition ccry_definition : DefGate := mkDefGate "CCRY" ccry [alpha].

(** ** pyQuil programs *)

(** [MemoryReference(name, offset, declared_size)]. *)
Record MemoryReference : Type := mkMemoryReference {
  mr_name : string;
  mr_offset : nat;
  mr_declared_size : option nat
}.

(** What the notebook appends to a [Program] with [+=] and [declare]. *)
Inductive instr : Type :=
| DefGateInstr (d : DefGate)
| Gate (name : string) (params : list np_float) (qubits : list nat)
| Declaration (name memory_type : string) (memory_size : nat)
| Measurement (qubit : nat) (classical_reg : MemoryReference).

(** A program is its instructions in the order they were appended, and
    the shot count set by [wrap_in_numshots_loop] (1 for a new program). *)
Record Program : Type := mkProgram {
  instructions : list instr;
  num_shots : nat
}.

(** [Program()] *)
Definition Program_new : Program := mkProgram [] 1.

(** [circuit += i] *)
Definition iadd (circuit : Program) (i : instr) : Program :=
  mkProgram (instructions circuit ++ [i]) (num_shots circuit).

(** [circuit.wrap_in_numshots_loop(shots)] *)
Definition wrap_in_numshots_loop (circuit : Program) (shots : nat) : Program :=
  mkProgram (instructions circuit) shots.

(** [circuit.declare(name, memory_type, memory_size)]: appends the
    declaration and hands back the base reference to the new region. *)
Definition declare (circuit : Program) (name memory_type : string)
    (memory_size : nat) : MemoryReference * Program :=
  (mkMemoryReference name 0 (Some memory_size),
   iadd circuit (Declaration name memory_type memory_size)).

(** [ro[offset]]: only the base reference may be indexed, and only
    inside the declared size. *)
Definition mr_getitem (ro : MemoryReference) (offset : nat)
    : result MemoryReference :=
  if negb (mr_offset ro =? 0)%nat then Raise ValueError
  else
    match mr_declared_size ro with
    | Some size =>
        if (size =? 0)%nat || (offset <? size)%nat
        then Ok (mkMemoryReference (mr_name ro) offset None)
        else Raise IndexError
    | None => Ok (mkMemoryReference (mr_name ro) offset None)
    end.

(** The standard gates of [pyquil.gates] that the notebook uses. *)
Definition H (qubit : nat) : instr := Gate "H" [] [qubit].
Definition X (qubit : nat) : instr := Gate "X" [] [qubit].
Definition CNOT (control target : nat) : instr :=
  Gate "CNOT" [] [control; target].
Definition CCNOT (control1 control2 target : nat) : instr :=
  Gate "CCNOT" [] [control1; control2; target].
Definition MEASURE (qubit : nat) (classical_reg : MemoryReference) : instr :=
  Measurement qubit classical_reg.

(** [d.get_constructor()]: [CRY(angle)(q0, q1)] is the gate named after
    the definition, with that parameter, on those qubits. *)
Definition get_constructor (d : DefGate) (params : list np_float)
    (qubits : list nat) : instr :=
  Gate (gate_name d) params qubits.

Definition CRY (angle : np_float) (control target : nat) : instr :=
  get_constructor cry_definition [angle] [control; target].
Definition CCRY (angle : np_float) (control1 control2 target : nat) : instr :=
  get_constructor ccry_definition [angle] [control1; control2; target].

(** [l[i]] for a list and a non-negative index. *)
Definition list_getitem {A} (l : list A) (i : nat) : result A :=
  match l !! i with
  | Some a => Ok a
  | None => Raise IndexError
  end.

(** ** Cell 12: state preparation *)

(** The four qubit roles; in the source they are the local variables at
    the head of [prepare_state]. *)
Definition ancilla_qubit : nat := 0.
Definition index_qubit : nat := 1.
Definition data_qubit : nat := 2.
Definition class_qubit : nat := 3.

Definition prepare_state (angles : list np_float) : result Program :=
  let circuit := Program_new in
  let circuit := iadd circuit (DefGateInstr cry_definition) in
  let circuit := iadd circuit (DefGateInstr ccry_definition) in
  (* Put the ancilla and the index qubits into uniform superposition *)
  let circuit := iadd circuit (H ancilla_qubit) in
  let circuit := iadd circuit (H index_qubit) in
  (* Prepare the test vector *)
  angle0 ← list_getitem angles 0;
  let circuit := iadd circuit (CRY angle0 ancilla_qubit data_qubit) in
  (* Flip the ancilla qubit *)
  let circuit := iadd circuit (X ancilla_qubit) in
  (* Prepare the first training vector with a Toffoli *)
  let circuit := iadd circuit (CCNOT ancilla_qubit index_qubit data_qubit) in
  (* Flip the index qubit *)
  let circuit := iadd circuit (X index_qubit) in
  (* Prepare the second training vector *)
  angle1 ← list_getitem angles 1;
  let circuit :=
    iadd circuit (CCRY angle1 ancilla_qubit index_qubit data_qubit) in
  (* Flip the class label for training vector #2 *)
  let circuit := iadd circuit (CNOT index_qubit class_qubit) in
  mret circuit.

(** ** Cell 21: interference and measurement *)

(** A [for] loop whose body may raise. *)
Fixpoint for_each {A B} (body : A → B → result A) (acc : A) (l : list B)
    : result A :=
  match l with
  | [] => Ok acc
  | b :: l' => acc' ← body acc b; for_each body acc' l'
  end.

(** [range(n)] *)
Definition range (n : nat) : list nat := seq 0 n.

Definition interfere_data_and_test_instances (circuit : Program)
    (angles : list np_float) : result Program :=
  let '(ro, circuit) := declare circuit "ro" "BIT" 4 in
  let circuit := iadd circuit (H 0) in
  circuit ← for_each
    (λ circuit q, ro_q ← mr_getitem ro q; mret (iadd circuit (MEASURE q ro_q)))
    circuit (range 4);
  mret circuit.

(** ** The outside world: standard output and the two server processes *)

(** A float64 that is not a number, or infinite. *)
Inductive non_finite : Type :=
| nan
| pos_inf
| neg_inf.

(** One [print] call: the literal text, then the number that Python
    formats after it (its decimal rendering is not modelled), which may
    be [nan] or infinite; or a line of text alone. *)
Inductive printed : Type :=
| Print (text : string) (value : Q)
| PrintNonFinite (text : string) (value : non_finite)
| PrintLine (text : string).

Record world : Type := mkWorld {
  qvm_server_alive : bool;
  quilc_server_alive : bool;
  stdout : list printed
}.

(** Python code with effects: it reads and changes the world, and it
    returns or raises. *)
Definition Py (A : Type) : Type := world → world * result A.

#[global] Instance Py_ret : MRet Py := λ A a w, (w, Ok a).
#[global] Instance Py_bind : MBind Py := λ A B k c w,
  match c w with
  | (w', Ok a) => k a w'
  | (w', Raise e) => (w', Raise e)
  end.

(** Effect-free code used inside effectful code. *)
Definition lift {A} (r : result A) : Py A := λ w, (w, r).

Definition print (text : string) (value : Q) : Py unit := λ w,
  (mkWorld (qvm_server_alive w) (quilc_server_alive w)
     (stdout w ++ [Print text value]), Ok tt).

(** ** Python primitives used by [postselect] *)

(** [sum(values)] over ints. *)
Definition py_sum (values : list Z) : Z := foldr Z.add 0 values.

(** The least magnitude that no longer rounds to a float64,
    2^1024 - 2^970. *)
Definition float_overflow_threshold : Z :=
  Eval vm_compute in (2 ^ 1024 - 2 ^ 970).

(** [a / b] on ints: [ZeroDivisionError] for a zero divisor, and
    [OverflowError] when the quotient is too large for a float. *)
Definition py_truediv (a b : Z) : result Q :=
  if b =? 0 then Raise ZeroDivisionError
  else if float_overflow_threshold * Z.abs b <=? Z.abs a
  then Raise OverflowError
  else Ok (inject_Z a / inject_Z b)%Q.

(** [s[i]] on a string, negative indices counting from the end; the
    result is a string of one character. *)
Definition str_getitem (s : string) (i : Z) : result string :=
  let n := Z.of_nat (String.length s) in
  let j := if i <? 0 then i + n else i in
  if (0 <=? j) && (j <? n) then
    match String.get (Z.to_nat j) s with
    | Some c => Ok (String c "")
    | None => Raise IndexError
    end
  else Raise IndexError.

(** [str(n)] on an int. *)
Definition py_str (n : Z) : string := pretty n.

(** [[x for x in l if cond(x)]] where the condition may raise. *)
Fixpoint comprehension {A} (cond : A → result bool) (l : list A)
    : result (list A) :=
  match l with
  | [] => Ok []
  | x :: l' =>
      b ← cond x;
      rest ← comprehension cond l';
      mret (if b : bool then x :: rest else rest)
  end.

(** [d.items()], [d.values()] and [dict(pairs)]. *)
Definition items (d : gmap string Z) : list (string * Z) := map_to_list d.
Definition values (d : gmap string Z) : list Z := (map_to_list d).*2.
Definition dict (pairs : list (string * Z)) : gmap string Z :=
  list_to_map pairs.

(** ** Cell 25: post-selection *)

(** [post_select = lambda counts: [(state, occurences) for state,
    occurences in counts.items() if state[0] == '0']] *)
Definition post_select (counts : gmap string Z) : result (list (string * Z)) :=
  comprehension
    (λ '(state, occurences), c ← str_getitem state 0; mret (String.eqb c "0"))
    (items counts).

(** [retrieve_class = lambda binary_class: [occurences for state,
    occurences in postselection.items() if state[-1] == str(binary_class)]] *)
Definition retrieve_class (postselection : gmap string Z) (binary_class : Z)
    : result (list Z) :=
  selected ← comprehension
    (λ '(state, occurences),
       c ← str_getitem state (-1); mret (String.eqb c (py_str binary_class)))
    (items postselection);
  mret (selected.*2).

Definition postselect (result_counts : gmap string Z) : Py unit :=
  let total_samples := py_sum (values result_counts) in
  (* perform the postselection *)
  selected ← lift (post_select result_counts);
  let postselection := dict selected in
  let postselected_samples := py_sum (values postselection) in
  rate ← lift (py_truediv postselected_samples total_samples);
  print "Ancilla post-selection probability was found to be " rate;;
  class0 ← lift (retrieve_class postselection 0);
  prob_class0 ← lift (py_truediv (py_sum class0) postselected_samples);
  class1 ← lift (retrieve_class postselection 1);
  prob_class1 ← lift (py_truediv (py_sum class1) postselected_samples);
  print "Probability for class 0 is " prob_class0;;
  print "Probability for class 1 is " prob_class1.

(** ** Cell 25 on numpy counts *)

(** The counts that cells 27 and 30 pass to [postselect] come from
    [np.unique]: they are numpy.int64 values, on which [sum] and [/] do
    not behave as on Python ints.  [postselect_np] is [postselect] read
    on a dict all of whose values are numpy.int64. *)

(** A number that [postselect] computes with. *)
Inductive number : Type :=
| PyInt (z : Z)
| NpInt64 (z : Z).

Definition number_value (n : number) : Z :=
  match n with
  | PyInt z => z
  | NpInt64 z => z
  end.

(** The wrap-around of int64 arithmetic. *)
Definition wrap_int64 (z : Z) : Z := (z + 2 ^ 63) mod 2 ^ 64 - 2 ^ 63.

(** [sum(values)] over numpy.int64 values: the start value is the Python
    int 0, which the first addition turns into a numpy.int64; the
    additions of int64 values wrap around. *)
Definition np_sum (values : list Z) : number :=
  match values with
  | [] => PyInt 0
  | _ :: _ => NpInt64 (wrap_int64 (py_sum values))
  end.

(** The float64 result of a division. *)
Inductive float64 : Type :=
| Float (q : Q)
| NonFinite (v : non_finite).

(** numpy's true division of two int64 values: it never raises; a zero
    divisor gives [nan], [inf] or [-inf] (with a [RuntimeWarning]). *)
Definition np_truediv (a b : Z) : float64 :=
  if b =? 0 then
    NonFinite (if a =? 0 then nan else if 0 <? a then pos_inf else neg_inf)
  else Float (inject_Z a / inject_Z b)%Q.

(** [a / b]: Python's division when both are Python ints, numpy's as
    soon as one of them is a numpy.int64; the other one, if it is a
    Python int, is then converted (in [postselect] it can only be the 0
    of an empty sum). *)
Definition truediv (a b : number) : result float64 :=
  match a, b with
  | PyInt x, PyInt y => q ← py_truediv x y; mret (Float q)
  | _, _ => Ok (np_truediv (number_value a) (number_value b))
  end.

Definition print_float (text : string) (value : float64) : Py unit :=
  match value with
  | Float q => print text q
  | NonFinite v => λ w,
      (mkWorld (qvm_server_alive w) (quilc_server_alive w)
         (stdout w ++ [PrintNonFinite text v]), Ok tt)
  end.

Definition postselect_np (result_counts : gmap string Z) : Py unit :=
  let total_samples := np_sum (values result_counts) in
  (* perform the postselection *)
  selected ← lift (post_select result_counts);
  let postselection := dict selected in
  let postselected_samples := np_sum (values postselection) in
  rate ← lift (truediv postselected_samples total_samples);
  print_float "Ancilla post-selection probability was found to be " rate;;
  class0 ← lift (retrieve_class postselection 0);
  prob_class0 ← lift (truediv (np_sum class0) postselected_samples);
  class1 ← lift (retrieve_class postselection 1);
  prob_class1 ← lift (truediv (np_sum class1) postselected_samples);
  print_float "Probability for class 0 is " prob_class0;;
  print_float "Probability for class 1 is " prob_class1.

(** ** Cell 18: the table of the prepared state *)

(** [print(line)] for a string. *)
Definition print_line (text : string) : Py unit := λ w,
  (mkWorld (qvm_server_alive w) (quilc_server_alive w)
     (stdout w ++ [PrintLine text]), Ok tt).

(** [print(a, b, ...)] for strings: the arguments separated by spaces. *)
Definition print_args (args : list string) : Py unit :=
  print_line (String.concat " " args).

Definition newline : string := String "010"%char "".

(** [s.split(sep)]: [skip] counts the characters of a separator just
    found that are still to be passed over, [current] is the piece read
    so far. *)
Fixpoint split_go (sep : string) (skip : nat) (current s : string)
    : list string :=
  match s with
  | EmptyString => [current]
  | String c s' =>
      match skip with
      | S skip' => split_go sep skip' current s'
      | O =>
          if String.prefix sep s
          then current :: split_go sep (String.length sep - 1) "" s'
          else split_go sep 0 (current +:+ String c "") s'
      end
  end.

Definition str_split (s sep : string) : result (list string) :=
  if String.eqb sep "" then Raise ValueError
  else Ok (split_go sep 0 "" s).

(** [s.find(sub)]: the first index at which [sub] starts, or -1. *)
Fixpoint find_go (sub s : string) (i : Z) : Z :=
  if String.prefix sub s then i
  else
    match s with
    | EmptyString => -1
    | String _ s' => find_go sub s' (i + 1)
    end.

Definition str_find (s sub : string) : Z := find_go sub s 0.

Fixpoint str_drop (n : nat) (s : string) : string :=
  match n, s with
  | O, _ => s
  | S n', String _ s' => str_drop n' s'
  | S _, EmptyString => EmptyString
  end.

(** [s[start:]] *)
Definition str_slice_from (s : string) (start : Z) : string :=
  let n := Z.of_nat (String.length s) in
  let i := if start <? 0 then Z.max 0 (start + n) else Z.min start n in
  str_drop (Z.to_nat i) s.

(** A [for] loop whose body has effects. *)
Fixpoint py_for {B} (l : list B) (body : B → Py unit) : Py unit :=
  match l with
  | [] => mret tt
  | b :: l' => body b;; py_for l' body
  end.

Definition val : list string :=
  [ "Xtest x"; "Xtest y"; "Xtrn0 y"; "Xtest x"; "Xtrn1 x"; "Xtest y";
    "Xtrn1 y" ].

(** The lines of cell 18 after the call of the simulator; [wfn] is
    [str(wfn)], the wavefunction as a string. *)
Definition print_wavefunction (wfn : string) : Py unit :=
  wfn_str ← lift (str_split wfn ">");
  print_line ("Normalized state vector" +:+ newline);;
  print_line "           cdia    coefficient";;
  py_for (range (length wfn_str - 1)) (λ i,
    chunk ← lift (list_getitem wfn_str i);
    a ← lift (str_split chunk ")|");
    v ← lift (list_getitem val i);
    a1 ← lift (list_getitem a 1);
    a0 ← lift (list_getitem a 0);
    print_args
      [v; "  "; a1; "  "; str_slice_from a0 (str_find a0 "(" + 1)]).

(** ** The notebook's top-level cells *)

(** The external collaborators of the notebook, any of whose calls may
    raise: [get_qc] of cell 1, [plot_circuit] of cell 15, the
    [WavefunctionSimulator] of cell 18, whose answer is used through
    [str] only, the plot of cell 23 taken as one call, and the
    simulator behind [qc]. *)
Record QuantumComputer : Type := mkQuantumComputer {
  get_qc : result unit;
  plot_circuit : Program → result unit;
  wavefunction : Program → result string;
  plot_kernel : result unit;
  qc_compile : Program → result Program;
  qc_run : Program → result (list (list bool))
}.

(** Modelled from the spec: [init_qvm_and_quilc] lives in [forest_tools],
    which is not part of the sources at hand.  The spec describes the
    simulation server as a process with a lifecycle of its own (start,
    serve, terminate) that is acquired before any circuit is compiled;
    the model starts both processes. *)
Definition init_qvm_and_quilc : Py unit := λ w,
  (mkWorld true true (stdout w), Ok tt).

(** [qvm_server.terminate()] and [quilc_server.terminate()] *)
Definition qvm_server_terminate : Py unit := λ w,
  (mkWorld false (quilc_server_alive w) (stdout w), Ok tt).
Definition quilc_server_terminate : Py unit := λ w,
  (mkWorld (qvm_server_alive w) false (stdout w), Ok tt).

(** Cell 5. *)
Definition training_set : list (list R) :=
  [ [0; 1]; [0.78861006; 0.61489363] ]%R.
Definition labels : list Z := [0; 1].
Definition test_set : list (list R) :=
  [ [-0.549; 0.836]; [0.053; 0.999] ]%R.

(** [l[i][j]] *)
Definition getitem2 {A} (l : list (list A)) (i j : nat) : result A :=
  row ← list_getitem l i; list_getitem row j.

(** [str(b)] for a measured bit, an int that is 0 or 1. *)
Definition bit_str (b : bool) : string := if b then "1" else "0".

(** [''.join(list(map(str, l)))] *)
Definition outcome_key (l : list bool) : string :=
  String.concat "" (bit_str <$> l).

(** The two lines that turn the sampled rows into a dict: [np.unique]
    with [return_counts=True, axis=0] counts each distinct row, and
    [dict(zip(keys, counts))] files the count under the row's string. *)
Definition count_outcomes (measures : list (list bool)) : gmap string Z :=
  foldr
    (λ l count,
       <[outcome_key l := default 0 (count !! outcome_key l) + 1]> count)
    ∅ measures.

(** Cells 1, 10, 15, 18, 23, 27, 29, 30 and 31 in order.  The imports,
    [np.set_printoptions] and the definitions of the cells in between
    are taken to succeed without output. *)
Definition session (qc : QuantumComputer) : Py unit :=
  (* cell 1 *)
  init_qvm_and_quilc;;
  lift (get_qc qc);;
  (* cell 10 *)
  test_angle0 ← lift (a ← getitem2 test_set 0 0; get_angle (Finite a));
  test_angle1 ← lift (a ← getitem2 test_set 1 0; get_angle (Finite a));
  let test_angles := [test_angle0; test_angle1] in
  training_angle ← lift (a ← getitem2 training_set 1 0; get_angle (Finite a));
  (* cell 15 *)
  a ← lift (list_getitem test_angles 0);
  let angles := [a; training_angle] in
  state_preparation_0 ← lift (prepare_state angles);
  lift (plot_circuit qc state_preparation_0);;
  (* cell 18 *)
  wfn ← lift (wavefunction qc state_preparation_0);
  print_wavefunction wfn;;
  (* cell 23 *)
  lift (plot_kernel qc);;
  (* cell 27 *)
  circuit_0 ← lift (interfere_data_and_test_instances state_preparation_0 angles);
  let circuit_0 := wrap_in_numshots_loop circuit_0 1024 in
  executable ← lift (qc_compile qc circuit_0);
  measures ← lift (qc_run qc executable);
  let count := count_outcomes measures in
  postselect_np count;;
  (* cell 29 *)
  a ← lift (list_getitem test_angles 1);
  let angles := [a; training_angle] in
  state_preparation_1 ← lift (prepare_state angles);
  (* cell 30 *)
  circuit_1 ← lift (interfere_data_and_test_instances state_preparation_1 angles);
  let circuit_1 := wrap_in_numshots_loop circuit_1 1024 in
  executable ← lift (qc_compile qc circuit_1);
  measures ← lift (qc_run qc executable);
  let count := count_outcomes measures in
  postselect_np count;;
  (* cell 31 *)
  qvm_server_terminate;;
  quilc_server_terminate.

(** ** Vocabulary of the properties *)

(** The instructions of a program that are gate applications. *)
Definition is_gate (i : instr) : bool :=
  match i with
  | Gate _ _ _ => true
  | _ => false
  end.

(** [ro[q]] as [interfere_data_and_test_instances] obtains it. *)
Definition ro_bit (q : nat) : MemoryReference := mkMemoryReference "ro" q None.

(** What [interfere_data_and_test_instances] appends. *)
Definition interference_suffix : list instr :=
  [ Declaration "ro" "BIT" 4;
    Gate "H" [] [ancilla_qubit];
    Measurement ancilla_qubit (ro_bit 0);
    Measurement index_qubit (ro_bit 1);
    Measurement data_qubit (ro_bit 2);
    Measurement class_qubit (ro_bit 3) ].

Definition is_bit_char (c : ascii) : bool :=
  Ascii.eqb c "0" || Ascii.eqb c "1".

(** A 4-bit binary outcome string. *)
Definition outcome_string (state : string) : bool :=
  match state with
  | String a (String b (String c (String d EmptyString))) =>
      is_bit_char a && is_bit_char b && is_bit_char c && is_bit_char d
  | _ => false
  end.

(** The tests of the two comprehensions of [postselect], as predicates
    on a key: [state[0] == '0'] and [state[-1] == str(binary_class)]. *)
Definition ancilla_is_0 (state : string) : bool :=
  match str_getitem state 0 with
  | Ok c => String.eqb c "0"
  | Raise _ => false
  end.

Definition class_is (binary_class : Z) (state : string) : bool :=
  match str_getitem state (-1) with
  | Ok c => String.eqb c (py_str binary_class)
  | Raise _ => false
  end.

(** An item whose key satisfies [P]. *)
Definition selects (P : string → bool) (kv : string * Z) : Prop :=
  Is_true (P kv.1).

#[global] Instance selects_dec (P : string → bool) (kv : string * Z) :
  Decision (selects P kv) := Is_true_dec (P kv.1).

(** The sum of the counts of the outcomes that satisfy [P]. *)
Definition count_where (P : string → bool) (counts : gmap string Z) : Z :=
  py_sum ((filter (selects P) (map_to_list counts)).*2).

Definition keys_are_outcomes (counts : gmap string Z) : Prop :=
  ∀ state occurences,
    counts !! state = Some occurences → Is_true (outcome_string state).

(** A mapping from 4-bit outcome strings to non-negative counts. *)
Definition outcome_mapping (counts : gmap string Z) : Prop :=
  map_Forall (λ state occurences,
    Is_true (outcome_string state) ∧ 0 ≤ occurences) counts.


(** The world after the three [print] calls of [postselect], and after
    the first of them only. *)
Definition printed_statistics (w : world) (rate prob_class0 prob_class1 : Q)
    : world :=
  mkWorld (qvm_server_alive w) (quilc_server_alive w)
    (stdout w
     ++ [ Print "Ancilla post-selection probability was found to be " rate;
          Print "Probability for class 0 is " prob_class0;
          Print "Probability for class 1 is " prob_class1 ]).

Definition printed_rate (w : world) (rate : Q) : world :=
  mkWorld (qvm_server_alive w) (quilc_server_alive w)
    (stdout w
     ++ [ Print "Ancilla post-selection probability was found to be " rate ]).

(** The value of [a / b] for a non-zero [b]. *)
Definition ratio (a b : Z) : Q := (inject_Z a / inject_Z b)%Q.

Definition servers_alive (w : world) : Prop :=
  qvm_server_alive w = true ∧ quilc_server_alive w = true.

Definition servers_terminated (w : world) : Prop :=
  qvm_server_alive w = false ∧ quilc_server_alive w = false.

(** A computation that leaves the two processes as they are. *)
Definition keeps_servers {A} (c : Py A) : Prop :=
  ∀ w, qvm_server_alive (c w).1 = qvm_server_alive w
       ∧ quilc_server_alive (c w).1 = quilc_server_alive w.

(** Where the processes stand at the end of a run that had both of them
    alive. *)
Definition lifecycle (w' : world) (r : result unit) : Prop :=
  match r with
  | Ok _ => servers_terminated w'
  | Raise _ => servers_alive w'
  end.

(** ** Concrete inputs *)


Definition ancilla_never_0 : gmap string Z := {[ "1000" := 4; "1011" := 2 ]}.

Definition all_zero_counts : gmap string Z := {[ "0000" := 0; "1001" := 0 ]}.

Definition fresh_world : world := mkWorld true true [].

Definition stopped_world : world := mkWorld false false [].

(** A wavefunction of two terms as [str] renders it. *)
Definition two_term_wavefunction : string :=
  "(0.71+0j)|0000> + (-0.71+0j)|0101>".

(** A simulator whose sampling call fails. *)
Definition unavailable_qc : QuantumComputer :=
  mkQuantumComputer (Ok tt) (λ _, Ok tt) (λ _, Ok two_term_wavefunction)
    (Ok tt) Ok (λ _, Raise ExecutionError).

(** A simulator that returns the same two shots for every program. *)
Definition two_shot_qc : QuantumComputer :=
  mkQuantumComputer (Ok tt) (λ _, Ok tt) (λ _, Ok two_term_wavefunction)
    (Ok tt) Ok
    (λ _, Ok [[false; false; false; true]; [false; true; false; false]]).

(** ** The matrices of the two user-defined gates as real matrices *)

(** The value of a Quil expression once its parameters have values. *)
Fixpoint eval_expr (env : string → R) (e : quil_expr) : R :=
  match e with
  | Num z => IZR z
  | Parameter_ name => env name
  | Half e' => (eval_expr env e' / 2)%R
  | quil_cos e' => cos (eval_expr env e')
  | quil_sin e' => sin (eval_expr env e')
  | Neg e' => (- eval_expr env e')%R
  end.

(** The declared parameters of a gate bound, in order, to the values it
    is applied to; a name that is not declared reads as 0. *)
Fixpoint bind_parameters (parameters : list quil_expr) (args : list R)
    (name : string) : R :=
  match parameters, args with
  | Parameter_ name' :: parameters', arg :: args' =>
      if String.eqb name name' then arg
      else bind_parameters parameters' args' name
  | _ :: parameters', _ :: args' => bind_parameters parameters' args' name
  | _, _ => 0%R
  end.

(** The matrix of a defined gate at the given parameter values. *)
Definition matrix_at (d : DefGate) (args : list R) : list (list R) :=
  map (map (eval_expr (bind_parameters (gate_parameters d) args)))
    (gate_matrix d).

(** Plain linear algebra on lists of rows. *)
Definition dot (u v : list R) : R :=
  foldr Rplus 0%R (zip_with Rmult u v).

Definition mat_vec (m : list (list R)) (v : list R) : list R :=
  map (λ row, dot row v) m.

Definition column (m : list (list R)) (j : nat) : list R :=
  map (λ row, nth j row 0%R) m.

Definition mat_mul (m1 m2 : list (list R)) : list (list R) :=
  map (λ row, map (λ j, dot row (column m2 j)) (seq 0 (length m2))) m1.

Definition transpose (m : list (list R)) : list (list R) :=
  map (column m) (seq 0 (length m)).

Definition basis (n k : nat) : list R :=
  map (λ i, if (i =? k)%nat then 1%R else 0%R) (seq 0 n).

Definition identity_matrix (n : nat) : list (list R) :=
  map (basis n) (seq 0 n).

(** ** Vocabulary of the further properties of [postselect] *)

Definition keys_nonempty (counts : gmap string Z) : Prop :=
  map_Forall (λ state (_ : Z), state ≠ "") counts.

(** A post-selected key whose last character is the digit of neither
    class. *)
Definition unclassified (state : string) : bool :=
  ancilla_is_0 state && negb (class_is 0 state) && negb (class_is 1 state).

(** What [postselect] does on a mapping without the empty key, by the
    two totals it computes. *)
Definition postselect_behaviour (counts : gmap string Z) (w : world)
    : world * result unit :=
  let total_samples := py_sum (values counts) in
  let postselected_samples := count_where ancilla_is_0 counts in
  if total_samples =? 0 then (w, Raise ZeroDivisionError)
  else if postselected_samples =? 0 then
    (printed_rate w (ratio 0 total_samples), Raise ZeroDivisionError)
  else
    (printed_statistics w
       (ratio postselected_samples total_samples)
       (ratio (count_where (λ s, ancilla_is_0 s && class_is 0 s) counts)
          postselected_samples)
       (ratio (count_where (λ s, ancilla_is_0 s && class_is 1 s) counts)
          postselected_samples),
     Ok tt).

(** A computation that leaves the server processes alone and only adds
    to what has been printed. *)
Definition appends_only {A} (c : Py A) : Prop :=
  ∀ w, qvm_server_alive (c w).1 = qvm_server_alive w
       ∧ quilc_server_alive (c w).1 = quilc_server_alive w
       ∧ stdout w `prefix_of` stdout (c w).1.

Definition mixed_counts : gmap string Z :=
  {[ "01" := 2; "0x" := 1; "1" := 5 ]}.

Definition counts_with_empty_key : gmap string Z :=
  {[ "" := 1; "0000" := 2 ]}.

(** ** Vocabulary of the properties of the sampled rows *)

(** The first bit of a row is 0; the last bit of a row is the bit given. *)
Definition ancilla_bit_0 (row : list bool) : bool :=
  match row with
  | false :: _ => true
  | _ => false
  end.

Definition class_bit (binary_class : bool) (row : list bool) : bool :=
  match last row with
  | Some b => Bool.eqb b binary_class
  | None => false
  end.

(** The number of sampled rows that satisfy [P]. *)
Definition shots_where (P : list bool → bool) (measures : list (list bool))
    : Z :=
  Z.of_nat (length (filter (λ row, Is_true (P row)) measures)).

(** What [postselect] does on the counts of the sampled rows, by the
    numbers of rows. *)
Definition postselect_on_shots (measures : list (list bool)) (w : world)
    : world * result unit :=
  let shots := Z.of_nat (length measures) in
  let accepted := shots_where ancilla_bit_0 measures in
  if shots =? 0 then (w, Raise ZeroDivisionError)
  else if accepted =? 0 then
    (printed_rate w (ratio 0 shots), Raise ZeroDivisionError)
  else
    (printed_statistics w
       (ratio accepted shots)
       (ratio (shots_where (λ row, ancilla_bit_0 row && class_bit false row)
                 measures) accepted)
       (ratio (shots_where (λ row, ancilla_bit_0 row && class_bit true row)
                 measures) accepted),
     Ok tt).

Definition example_measures : list (list bool) :=
  [ [false; false; false; true]; [true; false; true; true];
    [false; false; false; true]; [false; true; false; false] ].

(** ** Well-formed programs *)

(** The machine asked for in cell 1, [get_qc('4q-qvm')], has four qubits. *)
Definition number_of_qubits : nat := 4.

(** The gates of [pyquil.gates] that the notebook applies, with the
    number of qubits that each takes; they take no parameter. *)
Definition standard_gate_qubits (name : string) : option nat :=
  if String.eqb name "H" then Some 1%nat
  else if String.eqb name "X" then Some 1%nat
  else if String.eqb name "CNOT" then Some 2%nat
  else if String.eqb name "CCNOT" then Some 3%nat
  else None.

(** What the instructions read so far have brought into scope: the
    gates defined and the memory regions declared, with their sizes. *)
Record scope : Type := mkScope {
  defined_gates : list DefGate;
  declared_memory : list (string * nat)
}.

Definition square_of_dimension (n : nat) (m : list (list quil_expr)) : bool :=
  (length m =? n)%nat && forallb (λ row, (length row =? n)%nat) m.

(** Distinct qubits of the machine. *)
Definition qubits_ok (qubits : list nat) : bool :=
  bool_decide (NoDup qubits)
  && forallb (λ q, (q <? number_of_qubits)%nat) qubits.

(** A gate application fits a definition when it has the name, as many
    parameters as the definition declares, and a matrix of dimension 2
    to the number of qubits. *)
Definition fits_definition (name : string) (params : list np_float)
    (qubits : list nat) (d : DefGate) : bool :=
  String.eqb (gate_name d) name
  && (length params =? length (gate_parameters d))%nat
  && square_of_dimension (2 ^ length qubits) (gate_matrix d).

Definition fits_standard_gate (name : string) (params : list np_float)
    (qubits : list nat) : bool :=
  match standard_gate_qubits name with
  | Some n => (length qubits =? n)%nat && (length params =? 0)%nat
  | None => false
  end.

(** One instruction checked against the scope, which it may extend. *)
Definition check_instr (sc : scope) (i : instr) : option scope :=
  match i with
  | DefGateInstr d =>
      Some (mkScope (defined_gates sc ++ [d]) (declared_memory sc))
  | Gate name params qubits =>
      if qubits_ok qubits
         && (fits_standard_gate name params qubits
             || existsb (fits_definition name params qubits)
                  (defined_gates sc))
      then Some sc else None
  | Declaration name memory_type memory_size =>
      Some (mkScope (defined_gates sc)
              (declared_memory sc ++ [(name, memory_size)]))
  | Measurement qubit classical_reg =>
      if (qubit <? number_of_qubits)%nat
         && existsb
              (λ region : string * nat,
                 String.eqb region.1 (mr_name classical_reg)
                 && (mr_offset classical_reg <? region.2)%nat)
              (declared_memory sc)
      then Some sc else None
  end.

Fixpoint check_instrs (sc : scope) (l : list instr) : option scope :=
  match l with
  | [] => Some sc
  | i :: l' =>
      match check_instr sc i with
      | Some sc' => check_instrs sc' l'
      | None => None
      end
  end.

(** Every gate applied is a standard gate or a gate defined earlier in
    the program, with fitting parameters and qubits, and every
    measurement writes inside a region declared earlier. *)
Definition well_formed (p : Program) : bool :=
  match check_instrs (mkScope [] []) (instructions p) with
  | Some _ => true
  | None => false
  end.

(** ** Vocabulary of the further properties of the session *)

(** The circuit that [prepare_state] builds in the session for a test
    vector with the given first coordinate (cells 10, 15 and 29). *)
Definition state_preparation (test_amplitude : R) : Program :=
  mkProgram
    [ DefGateInstr cry_definition;
      DefGateInstr ccry_definition;
      Gate "H" [] [ancilla_qubit];
      Gate "H" [] [index_qubit];
      Gate "CRY" [Finite (2 * acos test_amplitude)%R]
        [ancilla_qubit; data_qubit];
      Gate "X" [] [ancilla_qubit];
      Gate "CCNOT" [] [ancilla_qubit; index_qubit; data_qubit];
      Gate "X" [] [index_qubit];
      Gate "CCRY" [Finite (2 * acos 0.78861006)%R]
        [ancilla_qubit; index_qubit; data_qubit];
      Gate "CNOT" [] [index_qubit; class_qubit] ]
    1.

(** The same circuit after the interference stage, wrapped in a loop of
    1024 shots (cells 27 and 30). *)
Definition classifier_circuit (test_amplitude : R) : Program :=
  mkProgram (instructions (state_preparation test_amplitude)
             ++ interference_suffix) 1024.

(** The session with its own computations carried out: what is left are
    the calls of the external collaborators, the table of cell 18, the
    two post-selections and the termination of the servers. *)
Definition session_calls (qc : QuantumComputer) : Py unit :=
  init_qvm_and_quilc;;
  lift (get_qc qc);;
  lift (plot_circuit qc (state_preparation (-0.549)));;
  wfn ← lift (wavefunction qc (state_preparation (-0.549)));
  print_wavefunction wfn;;
  lift (plot_kernel qc);;
  executable ← lift (qc_compile qc (classifier_circuit (-0.549)));
  measures ← lift (qc_run qc executable);
  postselect_np (count_outcomes measures);;
  executable ← lift (qc_compile qc (classifier_circuit 0.053));
  measures ← lift (qc_run qc executable);
  postselect_np (count_outcomes measures);;
  qvm_server_terminate;;
  quilc_server_terminate.

(** The three lines that [postselect] prints for the sampled rows. *)
Definition shot_report (measures : list (list bool)) : list printed :=
  let shots := Z.of_nat (length measures) in
  let accepted := shots_where ancilla_bit_0 measures in
  [ Print "Ancilla post-selection probability was found to be "
      (ratio accepted shots);
    Print "Probability for class 0 is "
      (ratio (shots_where (λ row, ancilla_bit_0 row && class_bit false row)
                measures) accepted);
    Print "Probability for class 1 is "
      (ratio (shots_where (λ row, ancilla_bit_0 row && class_bit true row)
                measures) accepted) ].

(** ** [postselect] by its divisions *)

(** [postselect] on Python ints once the two comprehensions have
    returned: the three divisions in the order of the source, each of
    which may raise, and what has been printed by then. *)
Definition postselect_divisions (counts : gmap string Z) (w : world)
    : world * result unit :=
  let total_samples := py_sum (values counts) in
  let postselected_samples := count_where ancilla_is_0 counts in
  match py_truediv postselected_samples total_samples with
  | Raise e => (w, Raise e)
  | Ok rate =>
      match py_truediv
              (count_where (λ s, ancilla_is_0 s && class_is 0 s) counts)
              postselected_samples with
      | Raise e => (printed_rate w rate, Raise e)
      | Ok prob_class0 =>
          match py_truediv
                  (count_where (λ s, ancilla_is_0 s && class_is 1 s) counts)
                  postselected_samples with
          | Raise e => (printed_rate w rate, Raise e)
          | Ok prob_class1 =>
              (printed_statistics w rate prob_class0 prob_class1, Ok tt)
          end
      end
  end.

(** The counts of the outcomes that satisfy [P]. *)
Definition counts_where (P : string → bool) (counts : gmap string Z)
    : list Z :=
  (filter (selects P) (map_to_list counts)).*2.

(** The world after one [print] of a float64. *)
Definition printed_float (w : world) (text : string) (value : float64)
    : world :=
  (print_float text value w).1.

(** The world after the three [print] calls of [postselect_np]. *)
Definition printed_floats (w : world)
    (rate prob_class0 prob_class1 : float64) : world :=
  printed_float
    (printed_float
       (printed_float w
          "Ancilla post-selection probability was found to be " rate)
       "Probability for class 0 is " prob_class0)
    "Probability for class 1 is " prob_class1.

(** [postselect] on numpy.int64 counts once the two comprehensions have
    returned. *)
Definition postselect_np_divisions (counts : gmap string Z) (w : world)
    : world * result unit :=
  let total_samples := np_sum (values counts) in
  let postselected_samples := np_sum (counts_where ancilla_is_0 counts) in
  match truediv postselected_samples total_samples with
  | Raise e => (w, Raise e)
  | Ok rate =>
      let w1 :=
        printed_float w
          "Ancilla post-selection probability was found to be " rate in
      match truediv
              (np_sum (counts_where
                         (λ s, ancilla_is_0 s && class_is 0 s) counts))
              postselected_samples with
      | Raise e => (w1, Raise e)
      | Ok prob_class0 =>
          match truediv
                  (np_sum (counts_where
                             (λ s, ancilla_is_0 s && class_is 1 s) counts))
                  postselected_samples with
          | Raise e => (w1, Raise e)
          | Ok prob_class1 =>
              (printed_float
                 (printed_float w1 "Probability for class 0 is " prob_class0)
                 "Probability for class 1 is " prob_class1,
               Ok tt)
          end
      end
  end.

(** What [postselect_np] does on a mapping of non-negative numpy.int64
    counts without the empty key: it raises at once on the empty
    mapping; otherwise it prints the rate, [nan] when the total is 0;
    then it raises when no key is post-selected, and otherwise prints
    the two class probabilities, [nan] when the post-selected total is
    0, and returns. *)
Definition postselect_np_behaviour (counts : gmap string Z) (w : world)
    : world * result unit :=
  let total_samples := py_sum (values counts) in
  let postselected_samples := count_where ancilla_is_0 counts in
  match map_to_list counts with
  | [] => (w, Raise ZeroDivisionError)
  | _ :: _ =>
      let w1 :=
        printed_float w
          "Ancilla post-selection probability was found to be "
          (np_truediv postselected_samples total_samples) in
      match filter (selects ancilla_is_0) (map_to_list counts) with
      | [] => (w1, Raise ZeroDivisionError)
      | _ :: _ =>
          (printed_float
             (printed_float w1 "Probability for class 0 is "
                (np_truediv
                   (count_where (λ s, ancilla_is_0 s && class_is 0 s) counts)
                   postselected_samples))
             "Probability for class 1 is "
             (np_truediv
                (count_where (λ s, ancilla_is_0 s && class_is 1 s) counts)
                postselected_samples),
           Ok tt)
      end
  end.

(** A mapping with an ancilla-0 outcome that was never observed. *)
Definition zero_ancilla_counts : gmap string Z :=
  {[ "0000" := 0; "1000" := 4 ]}.

(** The two lines that cell 18 prints above its table. *)
Definition table_header : list printed :=
  [ PrintLine ("Normalized state vector" +:+ newline);
    PrintLine "           cdia    coefficient" ].

(** The table that cell 18 prints for [two_term_wavefunction]. *)
Definition two_term_table : list printed :=
  [ PrintLine ("Normalized state vector" +:+ newline);
    PrintLine "           cdia    coefficient";
    PrintLine "Xtest x    0000    0.71+0j";
    PrintLine "Xtest y    0101    -0.71+0j" ].

(** A step of the loop of cell 18 raises, or it prints one line. *)
Definition prints_a_line_or_raises {B} (body : B → Py unit) : Prop :=
  ∀ b w,
    (∃ e, body b w = (w, Raise e)) ∨ (∃ line, body b w = print_line line w).

(** * Properties *)

(** ** The angle encoder *)

Section AngleEncoder.
Local Open Scope R_scope.

Lemma np_arccos_in_domain (a : R) :
  -1 <= a <= 1 → np_arccos (Finite a) = Ok (Finite (acos a)).
Proof.
  intros [Hlo Hhi]. unfold np_arccos.
  destruct (Rle_dec (-1) a) as [_|Hn]; [|contradiction].
  destruct (Rle_dec a 1) as [_|Hn]; [reflexivity|contradiction].
Qed.

Lemma np_arccos_outside (a : R) :
  ¬ (-1 <= a <= 1) → np_arccos (Finite a) = Ok NaN.
Proof.
  intros Hout. unfold np_arccos.
  destruct (Rle_dec (-1) a) as [Hlo|_]; [|reflexivity].
  destruct (Rle_dec a 1) as [Hhi|_]; [|reflexivity].
  exfalso. apply Hout. split; assumption.
Qed.

Lemma get_angle_Finite (a : R) :
  -1 <= a <= 1 → get_angle (Finite a) = Ok (Finite (2 * acos a)).
Proof.
  intros Ha. unfold get_angle. rewrite (np_arccos_in_domain a Ha).
  reflexivity.
Qed.

(** C4: on the domain [-1, 1] the encoder returns exactly twice the
    arc cosine of its input, the angle in [0, 2 pi] whose half has the
    input as its cosine; and [get_angle(1)] is [0]. *)
Theorem get_angle_twice_arccos (a : R) :
  -1 <= a <= 1 →
  get_angle (Finite a) = Ok (Finite (2 * acos a))
  ∧ cos ((2 * acos a) / 2) = a
  ∧ 0 <= 2 * acos a <= 2 * PI
  ∧ get_angle (Finite 1) = Ok (Finite 0).
Proof.
  intros Ha. split; [exact (get_angle_Finite a Ha)|].
  split.
  - replace ((2 * acos a) / 2) with (acos a) by lra.
    apply cos_acos. exact Ha.
  - split.
    + pose proof (acos_bound a) as Hb. lra.
    + rewrite get_angle_Finite by lra. rewrite acos_1.
      do 2 f_equal. lra.
Qed.

Lemma get_angle_twice_arccos_at_zero :
  -1 <= 0 <= 1
  ∧ get_angle (Finite 0) = Ok (Finite (2 * acos 0))
  ∧ cos ((2 * acos 0) / 2) = 0
  ∧ 0 <= 2 * acos 0 <= 2 * PI
  ∧ get_angle (Finite 1) = Ok (Finite 0).
Proof.
  split; [lra | apply (get_angle_twice_arccos 0); lra].
Defined.

(** C7 fails as stated: outside [-1, 1] the encoder raises nothing.
    At the input 2 it returns [nan]. *)
Lemma get_angle_two_returns_nan :
  ¬ (-1 <= 2 <= 1)
  ∧ get_angle (Finite 2) = Ok NaN
  ∧ get_angle (Finite 2) ≠ Raise ValueError.
Proof.
  assert (Hout : ¬ (-1 <= 2 <= 1)) by lra.
  assert (Hval : get_angle (Finite 2) = Ok NaN).
  { unfold get_angle. rewrite (np_arccos_outside 2 Hout). reflexivity. }
  split; [exact Hout|]. split; [exact Hval|].
  rewrite Hval. discriminate.
Qed.

(** C7, amended: for every input outside [-1, 1] the encoder returns
    [nan] and raises no exception. *)
Theorem get_angle_outside_domain_nan (a : R) :
  ¬ (-1 <= a <= 1) →
  get_angle (Finite a) = Ok NaN ∧ ∀ e, get_angle (Finite a) ≠ Raise e.
Proof.
  intros Hout.
  assert (Hval : get_angle (Finite a) = Ok NaN).
  { unfold get_angle. rewrite (np_arccos_outside a Hout). reflexivity. }
  split; [exact Hval|]. intros e. rewrite Hval. discriminate.
Qed.

Lemma get_angle_outside_domain_nan_at_two :
  ¬ (-1 <= 2 <= 1)
  ∧ get_angle (Finite 2) = Ok NaN ∧ ∀ e, get_angle (Finite 2) ≠ Raise e.
Proof.
  split; [lra | apply (get_angle_outside_domain_nan 2); lra].
Defined.

End AngleEncoder.

(** ** Circuit construction *)

Section Circuits.

(** With fewer than two angles the builder raises [IndexError]. *)
Lemma prepare_state_short (angles : list np_float) :
  (length angles < 2)%nat → prepare_state angles = Raise IndexError.
Proof.
  destruct angles as [|a0 [|a1 rest]]; simpl; [reflexivity..|lia].
Qed.

(** C1: for every pair of angles the builder returns the program made of
    the two gate definitions followed by exactly H(ancilla), H(index),
    CRY(theta_test) ancilla data, X(ancilla), CCNOT ancilla index data,
    X(index), CCRY(theta_train) ancilla index data, CNOT index class, in
    this order; it is a value computed without the simulator, so running
    it inside any world leaves that world as it was. *)
Theorem prepare_state_gate_sequence
    (theta_test theta_train : np_float) (rest : list np_float) :
  prepare_state (theta_test :: theta_train :: rest)
  = Ok (mkProgram
          [ DefGateInstr cry_definition;
            DefGateInstr ccry_definition;
            Gate "H" [] [ancilla_qubit];
            Gate "H" [] [index_qubit];
            Gate "CRY" [theta_test] [ancilla_qubit; data_qubit];
            Gate "X" [] [ancilla_qubit];
            Gate "CCNOT" [] [ancilla_qubit; index_qubit; data_qubit];
            Gate "X" [] [index_qubit];
            Gate "CCRY" [theta_train] [ancilla_qubit; index_qubit; data_qubit];
            Gate "CNOT" [] [index_qubit; class_qubit] ]
          1)
  ∧ ∀ w : world,
      fst (lift (prepare_state (theta_test :: theta_train :: rest)) w) = w.
Proof. split; [reflexivity | intros w; reflexivity]. Qed.

(** C3: the interference stage returns the given circuit extended by
    the declaration of the 4-bit readout [ro], one Hadamard on the
    ancilla (the only gate it appends) and the measurement of qubit [q]
    into [ro[q]] for the four qubits in order; in the string built from
    a row of four readout bits the first character is the ancilla's bit
    and the last one the class bit, which are the positions that the two
    tests of [postselect] read. *)
Theorem interfere_appends_hadamard_and_measurements
    (circuit : Program) (angles : list np_float) :
  interfere_data_and_test_instances circuit angles
  = Ok (mkProgram (instructions circuit ++ interference_suffix)
          (num_shots circuit))
  ∧ filter is_gate interference_suffix = [Gate "H" [] [ancilla_qubit]]
  ∧ (∀ q, Measurement q (ro_bit q) ∈ interference_suffix ↔ (q < 4)%nat)
  ∧ (∀ q r, Measurement q r ∈ interference_suffix → r = ro_bit q)
  ∧ ∀ ancilla index data class : bool,
      let state := outcome_key [ancilla; index; data; class] in
      str_getitem state 0 = Ok (bit_str ancilla)
      ∧ str_getitem state (-1) = Ok (bit_str class)
      ∧ ancilla_is_0 state = negb ancilla
      ∧ class_is 0 state = negb class
      ∧ class_is 1 state = class.
Proof.
  split.
  { unfold interfere_data_and_test_instances, declare, iadd. simpl.
    rewrite <- !app_assoc. reflexivity. }
  split; [reflexivity|].
  split.
  { intros q. unfold interference_suffix, ro_bit.
    rewrite !elem_of_cons, elem_of_nil.
    unfold ancilla_qubit, index_qubit, data_qubit, class_qubit.
    split.
    - intros Hq. repeat destruct Hq as [Hq|Hq];
        try discriminate; try contradiction; inversion Hq; lia.
    - intros Hq.
      destruct q as [|[|[|[|q]]]]; [| | | |lia];
        repeat first [left; reflexivity | right]. }
  split.
  { intros q r. unfold interference_suffix, ro_bit.
    rewrite !elem_of_cons, elem_of_nil.
    intros Hq. repeat destruct Hq as [Hq|Hq];
      try discriminate; try contradiction;
      inversion Hq; reflexivity. }
  intros [] [] [] []; repeat split; reflexivity.
Qed.

(** C10: the [angles] argument of the interference stage has no
    influence on the circuit it returns. *)
Theorem interfere_independent_of_angles
    (circuit : Program) (angles1 angles2 : list np_float) :
  interfere_data_and_test_instances circuit angles1
  = interfere_data_and_test_instances circuit angles2.
Proof. reflexivity. Qed.

End Circuits.

(** ** Post-selection *)

Section Postselection.

Implicit Types (m : gmap string Z) (w : world) (l : list (string * Z)).

(** *** The comprehensions *)

Lemma comprehension_filter {A} (cond : A → result bool) (g : A → bool)
    (l : list A) :
  (∀ x, x ∈ l → cond x = Ok (g x)) →
  comprehension cond l = Ok (filter (λ x, Is_true (g x)) l).
Proof.
  induction l as [|x l IH]; intros Hcond; [reflexivity|].
  simpl. rewrite (Hcond x) by (left).
  rewrite IH by (intros y Hy; apply Hcond; right; exact Hy).
  simpl. rewrite filter_cons.
  destruct (g x); reflexivity.
Qed.

Lemma comprehension_raises {A} (cond : A → result bool) (l : list A)
    (e : exn) (x : A) :
  x ∈ l → cond x = Raise e →
  (∀ y e', y ∈ l → cond y = Raise e' → e' = e) →
  comprehension cond l = Raise e.
Proof.
  induction l as [|x0 l IH]; intros Hin Hx Hall; [inversion Hin|].
  simpl. destruct (cond x0) as [b|e0] eqn:Hx0.
  - apply elem_of_cons in Hin as [->|Hin]; [congruence|].
    rewrite IH; [reflexivity|exact Hin|exact Hx|].
    intros y e' Hy. apply Hall. right. exact Hy.
  - simpl. f_equal. apply (Hall x0 e0); [left|exact Hx0].
Qed.

Lemma py_sum_Permutation (l1 l2 : list Z) :
  l1 ≡ₚ l2 → py_sum l1 = py_sum l2.
Proof.
  unfold py_sum. induction 1; simpl; lia.
Qed.

Lemma np_sum_Permutation (l1 l2 : list Z) :
  l1 ≡ₚ l2 → np_sum l1 = np_sum l2.
Proof.
  intros Hperm. pose proof (Permutation_length Hperm) as Hlen.
  destruct l1, l2; try discriminate; [reflexivity|].
  unfold np_sum. do 2 f_equal. apply py_sum_Permutation, Hperm.
Qed.

(** *** Indexing the keys *)

Lemma outcome_string_getitem (state : string) :
  outcome_string state →
  ∃ a d, is_bit_char a ∧ is_bit_char d
         ∧ str_getitem state 0 = Ok (String a "")
         ∧ str_getitem state (-1) = Ok (String d "").
Proof.
  destruct state as [|a [|b [|c [|d [|e rest]]]]]; simpl; try tauto.
  intros Hbits. exists a, d.
  repeat (apply andb_prop_elim in Hbits as [Hbits ?]).
  repeat split; assumption.
Qed.

Lemma string_get_Some (s : string) (k : nat) :
  (k < String.length s)%nat → ∃ c, String.get k s = Some c.
Proof.
  revert k. induction s as [|a s IH]; intros k Hk; simpl in *; [lia|].
  destruct k as [|k]; [exists a; reflexivity|].
  apply IH. lia.
Qed.

Lemma str_getitem_first (state : string) :
  state ≠ "" → ∃ a, str_getitem state 0 = Ok (String a "").
Proof.
  destruct state as [|a rest]; [congruence|]. intros _. exists a.
  unfold str_getitem. simpl String.length.
  replace (0 <? 0) with false by reflexivity.
  replace ((0 <=? 0) && (0 <? Z.of_nat (S (String.length rest)))) with true
    by (symmetry; apply andb_true_intro; split; [reflexivity|];
        apply Z.ltb_lt; lia).
  reflexivity.
Qed.

Lemma str_getitem_last (state : string) :
  state ≠ "" → ∃ d, str_getitem state (-1) = Ok (String d "").
Proof.
  intros Hne.
  assert (Hlen : (0 < String.length state)%nat)
    by (destruct state; [congruence|simpl; lia]).
  destruct (string_get_Some state (String.length state - 1)) as [d Hd];
    [lia|].
  exists d. unfold str_getitem.
  replace (-1 <? 0) with true by reflexivity.
  replace ((0 <=? -1 + Z.of_nat (String.length state))
           && (-1 + Z.of_nat (String.length state)
               <? Z.of_nat (String.length state))) with true
    by (symmetry; apply andb_true_intro; split;
        [apply Z.leb_le|apply Z.ltb_lt]; lia).
  replace (Z.to_nat (-1 + Z.of_nat (String.length state)))
    with (String.length state - 1)%nat by lia.
  rewrite Hd. reflexivity.
Qed.

Lemma str_getitem_raises (state : string) (i : Z) (e : exn) :
  str_getitem state i = Raise e → e = IndexError.
Proof.
  unfold str_getitem.
  destruct (_ && _); [|congruence].
  destruct (String.get _ _); congruence.
Qed.

Lemma keys_are_outcomes_nonempty m : keys_are_outcomes m → keys_nonempty m.
Proof.
  intros Hkeys state occurences Hlook ->.
  exact (Hkeys _ _ Hlook).
Qed.

Lemma post_select_empty_key m (occurences : Z) :
  m !! "" = Some occurences → post_select m = Raise IndexError.
Proof.
  intros Hlook. unfold post_select.
  apply (comprehension_raises _ _ _ ("", occurences)).
  - apply elem_of_map_to_list. exact Hlook.
  - reflexivity.
  - intros [state occ] e' _ Hraise. simpl in Hraise.
    destruct (str_getitem state 0) as [c|e''] eqn:Hget; [discriminate|].
    apply str_getitem_raises in Hget. simpl in Hraise. congruence.
Qed.

Lemma post_select_nonempty m :
  keys_nonempty m →
  post_select m = Ok (filter (selects ancilla_is_0) (items m)).
Proof.
  intros Hkeys. unfold post_select.
  apply (comprehension_filter _ (λ kv, ancilla_is_0 kv.1)).
  intros [state occurences] Hin. apply elem_of_map_to_list in Hin.
  destruct (str_getitem_first state (Hkeys _ _ Hin)) as [a Hfirst].
  unfold ancilla_is_0. simpl. rewrite Hfirst. reflexivity.
Qed.

Lemma NoDup_fst_filter (P : string * Z → Prop) `{!∀ x, Decision (P x)} l :
  NoDup (l.*1) → NoDup ((filter P l).*1).
Proof.
  induction l as [|[k v] l IH]; [intros; constructor|].
  rewrite fmap_cons, NoDup_cons. intros [Hk Hl].
  rewrite filter_cons. destruct (decide (P (k, v))); [|auto].
  rewrite fmap_cons, NoDup_cons. split; [|auto].
  intros Hin. apply Hk.
  apply list_elem_of_fmap in Hin as ([k' v'] & -> & Hin).
  apply list_elem_of_filter in Hin as [_ Hin].
  apply list_elem_of_fmap. exists (k', v'). split; [reflexivity|exact Hin].
Qed.

(** The dict rebuilt from the selected items holds exactly them. *)
Lemma items_postselection m :
  items (dict (filter (selects ancilla_is_0) (items m)))
  ≡ₚ filter (selects ancilla_is_0) (items m).
Proof.
  unfold items, dict. apply map_to_list_to_map.
  apply NoDup_fst_filter, NoDup_fst_map_to_list.
Qed.

Lemma values_postselection m :
  values (dict (filter (selects ancilla_is_0) (items m)))
  ≡ₚ counts_where ancilla_is_0 m.
Proof.
  unfold values, counts_where. apply fmap_Permutation.
  apply (items_postselection m).
Qed.

Lemma postselected_samples_eq m :
  py_sum (values (dict (filter (selects ancilla_is_0) (items m))))
  = count_where ancilla_is_0 m.
Proof. apply py_sum_Permutation, values_postselection. Qed.

Lemma retrieve_class_nonempty m (binary_class : Z) :
  keys_nonempty m →
  ∃ selected,
    retrieve_class (dict (filter (selects ancilla_is_0) (items m))) binary_class
    = Ok selected
    ∧ selected
      ≡ₚ counts_where (λ s, ancilla_is_0 s && class_is binary_class s) m.
Proof.
  intros Hkeys. unfold retrieve_class.
  rewrite (comprehension_filter _ (λ kv, class_is binary_class kv.1)).
  - eexists. split; [reflexivity|].
    unfold counts_where. apply fmap_Permutation.
    rewrite (items_postselection m), list_filter_filter.
    unfold items. erewrite list_filter_iff; [reflexivity|].
    intros [state occurences]. unfold selects. simpl.
    destruct (ancilla_is_0 state), (class_is binary_class state);
      simpl; tauto.
  - intros [state occurences] Hin.
    rewrite (items_postselection m) in Hin.
    apply list_elem_of_filter in Hin as [_ Hin].
    apply elem_of_map_to_list in Hin.
    destruct (str_getitem_last state (Hkeys _ _ Hin)) as [d Hlast].
    unfold class_is. simpl. rewrite Hlast. reflexivity.
Qed.

(** *** The steps of the monad *)

Lemma bind_lift_Ok {A B} (a : A) (k : A → Py B) w :
  (lift (Ok a) ≫= k) w = k a w.
Proof. reflexivity. Qed.

Lemma bind_lift_raise {A B} (e : exn) (k : A → Py B) w :
  (lift (Raise e) ≫= k) w = (w, Raise e).
Proof. reflexivity. Qed.

Lemma bind_print {B} (text : string) (value : Q) (k : unit → Py B) w :
  (print text value ≫= k) w
  = k tt (mkWorld (qvm_server_alive w) (quilc_server_alive w)
            (stdout w ++ [Print text value])).
Proof. reflexivity. Qed.

Lemma print_float_Ok (text : string) (value : float64) w :
  print_float text value w = (printed_float w text value, Ok tt).
Proof. unfold printed_float. destruct value; reflexivity. Qed.

Lemma bind_print_float {B} (text : string) (value : float64)
    (k : unit → Py B) w :
  (print_float text value ≫= k) w = k tt (printed_float w text value).
Proof.
  unfold mbind, Py_bind. rewrite print_float_Ok. reflexivity.
Qed.

(** *** [postselect] and its divisions *)

Lemma postselect_divisions_eq m w :
  keys_nonempty m → postselect m w = postselect_divisions m w.
Proof.
  intros Hkeys.
  destruct (retrieve_class_nonempty m 0 Hkeys) as (class0 & Hclass0 & Hperm0).
  destruct (retrieve_class_nonempty m 1 Hkeys) as (class1 & Hclass1 & Hperm1).
  apply py_sum_Permutation in Hperm0, Hperm1.
  change (py_sum (counts_where ?P m)) with (count_where P m) in Hperm0, Hperm1.
  unfold postselect, postselect_divisions.
  rewrite (post_select_nonempty m Hkeys), bind_lift_Ok.
  rewrite (postselected_samples_eq m).
  destruct (py_truediv (count_where ancilla_is_0 m) (py_sum (values m)))
    as [rate|e]; [|reflexivity].
  rewrite bind_lift_Ok, bind_print.
  rewrite Hclass0, bind_lift_Ok, Hperm0.
  destruct (py_truediv (count_where (λ s, ancilla_is_0 s && class_is 0 s) m)
              (count_where ancilla_is_0 m)) as [prob_class0|e];
    [|reflexivity].
  rewrite bind_lift_Ok.
  rewrite Hclass1, bind_lift_Ok, Hperm1.
  destruct (py_truediv (count_where (λ s, ancilla_is_0 s && class_is 1 s) m)
              (count_where ancilla_is_0 m)) as [prob_class1|e];
    [|reflexivity].
  rewrite bind_lift_Ok, bind_print.
  unfold printed_statistics, print.
  cbn [stdout qvm_server_alive quilc_server_alive].
  rewrite <- !app_assoc. reflexivity.
Qed.

Lemma postselect_np_divisions_eq m w :
  keys_nonempty m → postselect_np m w = postselect_np_divisions m w.
Proof.
  intros Hkeys.
  destruct (retrieve_class_nonempty m 0 Hkeys) as (class0 & Hclass0 & Hperm0).
  destruct (retrieve_class_nonempty m 1 Hkeys) as (class1 & Hclass1 & Hperm1).
  apply np_sum_Permutation in Hperm0, Hperm1.
  unfold postselect_np, postselect_np_divisions.
  rewrite (post_select_nonempty m Hkeys), bind_lift_Ok.
  rewrite (np_sum_Permutation _ _ (values_postselection m)).
  destruct (truediv (np_sum (counts_where ancilla_is_0 m))
              (np_sum (values m))) as [rate|e]; [|reflexivity].
  rewrite bind_lift_Ok, bind_print_float.
  rewrite Hclass0, bind_lift_Ok, Hperm0.
  destruct (truediv _ (np_sum (counts_where ancilla_is_0 m)))
    as [prob_class0|e]; [|reflexivity].
  rewrite bind_lift_Ok.
  rewrite Hclass1, bind_lift_Ok, Hperm1.
  destruct (truediv _ (np_sum (counts_where ancilla_is_0 m)))
    as [prob_class1|e]; [|reflexivity].
  rewrite bind_lift_Ok, bind_print_float.
  rewrite print_float_Ok. reflexivity.
Qed.

(** *** The true division *)

Lemma float_overflow_threshold_large : 1 < float_overflow_threshold.
Proof. reflexivity. Qed.

Lemma py_truediv_fraction (a b : Z) :
  0 ≤ a ≤ b → 0 < b → py_truediv a b = Ok (ratio a b).
Proof.
  intros [Ha Hab] Hb. unfold py_truediv.
  destruct (Z.eqb_spec b 0) as [|_]; [lia|].
  destruct (Z.leb_spec (float_overflow_threshold * Z.abs b) (Z.abs a))
    as [Hover|_]; [|reflexivity].
  exfalso. pose proof float_overflow_threshold_large as Hlarge.
  rewrite (Z.abs_eq a), (Z.abs_eq b) in Hover by lia.
  assert (2 * b ≤ float_overflow_threshold * b)
    by (apply Z.mul_le_mono_nonneg_r; lia).
  lia.
Qed.

Lemma py_truediv_zero (a : Z) : py_truediv a 0 = Raise ZeroDivisionError.
Proof. reflexivity. Qed.

Lemma py_truediv_raises (a b : Z) (e : exn) :
  py_truediv a b = Raise e → e = ZeroDivisionError ∨ e = OverflowError.
Proof.
  unfold py_truediv. destruct (b =? 0); [intros [= <-]; auto|].
  destruct (_ <=? _); [intros [= <-]; auto|discriminate].
Qed.

Lemma wrap_int64_small (z : Z) : 0 ≤ z < 2 ^ 63 → wrap_int64 z = z.
Proof.
  intros Hz. unfold wrap_int64.
  change (2 ^ 63) with 9223372036854775808 in *.
  change (2 ^ 64) with 18446744073709551616.
  rewrite Z.mod_small by lia. lia.
Qed.

(** *** Sums over selected items *)

Lemma py_sum_cons (x : Z) (xs : list Z) : py_sum (x :: xs) = x + py_sum xs.
Proof. reflexivity. Qed.

Lemma py_sum_filter_cons (P : string * Z → Prop) `{!∀ x, Decision (P x)}
    (kv : string * Z) l :
  py_sum ((filter P (kv :: l)).*2)
  = (if decide (P kv) then kv.2 else 0) + py_sum ((filter P l).*2).
Proof.
  rewrite filter_cons. destruct (decide (P kv)); reflexivity.
Qed.

Lemma sum_filter_bounds (P : string * Z → Prop) `{!∀ x, Decision (P x)} l :
  Forall (λ kv, 0 ≤ kv.2) l →
  0 ≤ py_sum ((filter P l).*2) ≤ py_sum (l.*2).
Proof.
  induction 1 as [|kv l Hkv _ IH]; [simpl; lia|].
  rewrite py_sum_filter_cons, fmap_cons, py_sum_cons.
  destruct (decide (P kv)); lia.
Qed.


Lemma sum_filter_zero (P : string * Z → Prop) `{!∀ x, Decision (P x)} l :
  Forall (λ kv, 0 ≤ kv.2) l →
  Forall (λ kv, P kv → ¬ 0 < kv.2) l →
  py_sum ((filter P l).*2) = 0.
Proof.
  induction 1 as [|kv l Hkv _ IH]; [reflexivity|].
  intros Hzero. apply Forall_cons in Hzero as [Hhere Hrest].
  rewrite py_sum_filter_cons, (IH Hrest).
  destruct (decide (P kv)) as [HP|_]; [specialize (Hhere HP)|]; lia.
Qed.



Lemma outcome_mapping_keys m : outcome_mapping m → keys_are_outcomes m.
Proof. intros Hm state occurences Hlook. exact (proj1 (Hm _ _ Hlook)). Qed.

Lemma outcome_mapping_nonneg m :
  outcome_mapping m → Forall (λ kv, 0 ≤ kv.2) (map_to_list m).
Proof.
  intros Hm. apply Forall_forall. intros [state occurences] Hin.
  apply elem_of_map_to_list in Hin. exact (proj2 (Hm _ _ Hin)).
Qed.






Lemma class_is_disjoint (state : string) :
  class_is 0 state && class_is 1 state = false.
Proof.
  unfold class_is. destruct (str_getitem state (-1)) as [c|e]; [|reflexivity].
  destruct (String.eqb_spec c (py_str 0)) as [->|_]; reflexivity.
Qed.

Lemma sum_class_split_general l :
  py_sum ((filter (selects (λ s, ancilla_is_0 s && class_is 0 s)) l).*2)
  + py_sum ((filter (selects (λ s, ancilla_is_0 s && class_is 1 s)) l).*2)
  + py_sum ((filter (selects unclassified) l).*2)
  = py_sum ((filter (selects ancilla_is_0) l).*2).
Proof.
  induction l as [|kv l IH]; [reflexivity|].
  rewrite !py_sum_filter_cons, <- IH.
  pose proof (class_is_disjoint kv.1) as Hdis.
  repeat case_decide; unfold selects, unclassified in *; simpl in *;
    destruct (ancilla_is_0 kv.1), (class_is 0 kv.1), (class_is 1 kv.1);
    simpl in *; first [discriminate | exfalso; tauto | lia].
Qed.

Lemma counts_nonneg_list m :
  map_Forall (λ _ occurences, 0 ≤ occurences) m →
  Forall (λ kv, 0 ≤ kv.2) (map_to_list m).
Proof.
  intros Hm. apply Forall_forall. intros [state occurences] Hin.
  apply elem_of_map_to_list in Hin. exact (Hm _ _ Hin).
Qed.



(** *** [postselect] case by case *)

Lemma count_bounds m :
  map_Forall (λ _ occurences, 0 ≤ occurences) m →
  0 ≤ count_where ancilla_is_0 m ≤ py_sum (values m)
  ∧ 0 ≤ count_where (λ s, ancilla_is_0 s && class_is 0 s) m
    ≤ count_where ancilla_is_0 m
  ∧ 0 ≤ count_where (λ s, ancilla_is_0 s && class_is 1 s) m
    ≤ count_where ancilla_is_0 m
  ∧ 0 ≤ count_where unclassified m.
Proof.
  intros Hnonneg. pose proof (counts_nonneg_list m Hnonneg) as Hlist.
  pose proof (sum_filter_bounds (selects ancilla_is_0) _ Hlist) as Hb.
  pose proof (sum_filter_bounds
    (selects (λ s, ancilla_is_0 s && class_is 0 s)) _ Hlist) as Hb0.
  pose proof (sum_filter_bounds
    (selects (λ s, ancilla_is_0 s && class_is 1 s)) _ Hlist) as Hb1.
  pose proof (sum_filter_bounds (selects unclassified) _ Hlist) as Hbu.
  pose proof (sum_class_split_general (map_to_list m)) as Hsplit.
  unfold count_where, values. lia.
Qed.

Lemma postselect_behaviour_eq m w :
  keys_nonempty m →
  map_Forall (λ _ occurences, 0 ≤ occurences) m →
  postselect m w = postselect_behaviour m w.
Proof.
  intros Hkeys Hnonneg.
  destruct (count_bounds m Hnonneg) as (Hpost & Hc0 & Hc1 & _).
  rewrite (postselect_divisions_eq m w Hkeys).
  unfold postselect_divisions, postselect_behaviour.
  destruct (Z.eqb_spec (py_sum (values m)) 0) as [Htotal|Htotal].
  { rewrite Htotal, py_truediv_zero. reflexivity. }
  rewrite py_truediv_fraction by lia.
  destruct (Z.eqb_spec (count_where ancilla_is_0 m) 0) as [Hzero|Hzero].
  { rewrite Hzero, py_truediv_zero. reflexivity. }
  rewrite !py_truediv_fraction by lia. reflexivity.
Qed.

Lemma filter_nil_weaken (P Q : string * Z → Prop)
    `{!∀ x, Decision (P x)} `{!∀ x, Decision (Q x)} l :
  (∀ x, Q x → P x) → filter P l = [] → filter Q l = [].
Proof.
  intros Himpl Hnil. induction l as [|x l IH]; [reflexivity|].
  rewrite filter_cons in Hnil |- *.
  destruct (decide (P x)) as [|HnP]; [discriminate|].
  rewrite decide_False by (intros HQ; apply HnP, Himpl, HQ).
  apply IH, Hnil.
Qed.

Lemma selects_class_ancilla (binary_class : Z) (kv : string * Z) :
  selects (λ s, ancilla_is_0 s && class_is binary_class s) kv →
  selects ancilla_is_0 kv.
Proof.
  unfold selects. simpl. destruct (ancilla_is_0 kv.1); simpl; tauto.
Qed.

(** The division of [postselect_np] by a total that is a numpy.int64:
    the dividend is the sum of some of the counts. *)
Lemma truediv_np_sum (values : list Z) (divisor : Z) :
  0 ≤ py_sum values < 2 ^ 63 →
  truediv (np_sum values) (NpInt64 divisor)
  = Ok (np_truediv (py_sum values) divisor).
Proof.
  intros Hrange. destruct values as [|x values]; [reflexivity|].
  unfold np_sum, truediv, number_value.
  rewrite (wrap_int64_small _ Hrange). reflexivity.
Qed.

Lemma np_sum_cons_small (x : Z) (xs : list Z) :
  0 ≤ py_sum (x :: xs) < 2 ^ 63 →
  np_sum (x :: xs) = NpInt64 (py_sum (x :: xs)).
Proof.
  intros Hrange. unfold np_sum. rewrite (wrap_int64_small _ Hrange).
  reflexivity.
Qed.

Lemma postselect_np_behaviour_eq m w :
  keys_nonempty m →
  map_Forall (λ _ occurences, 0 ≤ occurences) m →
  py_sum (values m) < 2 ^ 63 →
  postselect_np m w = postselect_np_behaviour m w.
Proof.
  intros Hkeys Hnonneg Hrange.
  rewrite (postselect_np_divisions_eq m w Hkeys).
  pose proof (counts_nonneg_list m Hnonneg) as Hlist.
  unfold postselect_np_divisions, postselect_np_behaviour.
  unfold counts_where, count_where, values in *.
  clear Hkeys Hnonneg. revert Hlist Hrange.
  generalize (map_to_list m) as all. clear m. intros all Hlist Hrange.
  pose proof (sum_filter_bounds (selects ancilla_is_0) _ Hlist) as Hb.
  pose proof (sum_filter_bounds
    (selects (λ s, ancilla_is_0 s && class_is 0 s)) _ Hlist) as Hb0.
  pose proof (sum_filter_bounds
    (selects (λ s, ancilla_is_0 s && class_is 1 s)) _ Hlist) as Hb1.
  destruct all as [|kv items]; [reflexivity|].
  remember (kv :: items) as all eqn:Hall.
  assert (Htotal : np_sum (all.*2) = NpInt64 (py_sum (all.*2))).
  { subst all. rewrite fmap_cons in *. apply np_sum_cons_small. lia. }
  rewrite Htotal. rewrite truediv_np_sum by lia. cbv zeta.
  destruct (filter (selects ancilla_is_0) all) as [|sel selected] eqn:Hsel.
  { rewrite (filter_nil_weaken (selects ancilla_is_0) _ all
               (selects_class_ancilla 0) Hsel).
    subst all. reflexivity. }
  remember (sel :: selected) as accepted eqn:Haccepted.
  assert (Hnp : np_sum (accepted.*2) = NpInt64 (py_sum (accepted.*2))).
  { subst accepted. rewrite fmap_cons in *. apply np_sum_cons_small. lia. }
  rewrite Hnp. rewrite !truediv_np_sum by lia.
  subst all accepted. reflexivity.
Qed.
(** *** The claims about [postselect] *)

Lemma outcome_mapping_counts_nonneg m :
  outcome_mapping m → map_Forall (λ _ occurences, 0 ≤ occurences) m.
Proof. intros Hm state occurences Hlook. exact (proj2 (Hm _ _ Hlook)). Qed.

Lemma outcome_mapping_keys_nonempty m : outcome_mapping m → keys_nonempty m.
Proof.
  intros Hm. apply keys_are_outcomes_nonempty, outcome_mapping_keys, Hm.
Qed.


Lemma filter_none (P : string * Z → Prop) `{!∀ x, Decision (P x)} l :
  Forall (λ kv, ¬ P kv) l → filter P l = [].
Proof.
  induction 1 as [|kv l Hkv _ IH]; [reflexivity|].
  rewrite filter_cons, decide_False by exact Hkv. exact IH.
Qed.

Lemma sum_filter_ge_length (P : string * Z → Prop)
    `{!∀ x, Decision (P x)} l :
  Forall (λ kv, 1 ≤ kv.2) l →
  Z.of_nat (length (filter P l)) ≤ py_sum ((filter P l).*2).
Proof.
  induction 1 as [|kv l Hkv _ IH]; [simpl; lia|].
  rewrite py_sum_filter_cons, filter_cons.
  destruct (decide (P kv)); [rewrite length_cons|]; lia.
Qed.

Lemma sum_ge_length (l : list (string * Z)) :
  Forall (λ kv, 1 ≤ kv.2) l → Z.of_nat (length l) ≤ py_sum (l.*2).
Proof.
  induction 1 as [|kv l Hkv _ IH]; [simpl; lia|].
  rewrite fmap_cons, py_sum_cons, length_cons. lia.
Qed.

Lemma printed_floats_finite w (rate prob_class0 prob_class1 : Q) :
  printed_float
    (printed_float
       (printed_float w
          "Ancilla post-selection probability was found to be " (Float rate))
       "Probability for class 0 is " (Float prob_class0))
    "Probability for class 1 is " (Float prob_class1)
  = printed_statistics w rate prob_class0 prob_class1.
Proof.
  unfold printed_float, printed_statistics. simpl.
  rewrite <- !app_assoc. reflexivity.
Qed.

(** On counts that are all positive the two readings of [postselect]
    agree. *)
Lemma postselect_np_agrees m w :
  keys_nonempty m →
  map_Forall (λ _ occurences, 1 ≤ occurences) m →
  py_sum (values m) < 2 ^ 63 →
  postselect_np m w = postselect m w.
Proof.
  intros Hkeys Hpos Hrange.
  assert (Hnonneg : map_Forall (λ _ occurences, 0 ≤ occurences) m).
  { intros state occurences Hlook. specialize (Hpos _ _ Hlook).
    simpl in Hpos. lia. }
  assert (Hlist : Forall (λ kv, 1 ≤ kv.2) (map_to_list m)).
  { apply Forall_forall. intros [state occurences] Hin.
    apply elem_of_map_to_list in Hin. exact (Hpos _ _ Hin). }
  destruct (count_bounds m Hnonneg) as (Hpost & Hc0 & Hc1 & _).
  rewrite (postselect_np_behaviour_eq m w Hkeys Hnonneg Hrange).
  rewrite (postselect_behaviour_eq m w Hkeys Hnonneg).
  pose proof (sum_ge_length _ Hlist) as Htotal.
  pose proof (sum_filter_ge_length (selects ancilla_is_0) _ Hlist) as Hsel.
  unfold postselect_np_behaviour, postselect_behaviour.
  unfold count_where, values in *.
  destruct (map_to_list m) as [|kv items]; [reflexivity|].
  rewrite length_cons in Htotal.
  destruct (Z.eqb_spec (py_sum ((kv :: items).*2)) 0) as [|Hne]; [lia|].
  destruct (filter (selects ancilla_is_0) (kv :: items)) as [|kv' sel].
  - change (py_sum ([] : list (string * Z)).*2) with 0.
    unfold np_truediv.
    destruct (Z.eqb_spec (py_sum ((kv :: items).*2)) 0); [lia|].
    reflexivity.
  - rewrite length_cons in Hsel.
    destruct (Z.eqb_spec (py_sum ((kv' :: sel).*2)) 0) as [|Hne']; [lia|].
    unfold np_truediv.
    destruct (Z.eqb_spec (py_sum ((kv :: items).*2)) 0); [lia|].
    destruct (Z.eqb_spec (py_sum ((kv' :: sel).*2)) 0); [lia|].
    rewrite printed_floats_finite. reflexivity.
Qed.

(** [postselect_np] on a mapping that has a key with ancilla bit 0: the
    three values are printed whatever the totals are. *)
Lemma postselect_np_ancilla_key m w (state : string) (occurences : Z) :
  keys_nonempty m →
  map_Forall (λ _ occurences, 0 ≤ occurences) m →
  py_sum (values m) < 2 ^ 63 →
  m !! state = Some occurences →
  Is_true (ancilla_is_0 state) →
  postselect_np m w
  = (printed_floats w
       (np_truediv (count_where ancilla_is_0 m) (py_sum (values m)))
       (np_truediv (count_where (λ s, ancilla_is_0 s && class_is 0 s) m)
          (count_where ancilla_is_0 m))
       (np_truediv (count_where (λ s, ancilla_is_0 s && class_is 1 s) m)
          (count_where ancilla_is_0 m)),
     Ok tt).
Proof.
  intros Hkeys Hnonneg Hrange Hlook Hanc.
  rewrite (postselect_np_behaviour_eq m w Hkeys Hnonneg Hrange).
  unfold postselect_np_behaviour.
  assert (Hin : (state, occurences)
                ∈ filter (selects ancilla_is_0) (map_to_list m)).
  { apply list_elem_of_filter. split; [exact Hanc|].
    apply elem_of_map_to_list, Hlook. }
  destruct (filter (selects ancilla_is_0) (map_to_list m)) as [|kv sel] eqn:Hsel;
    [inversion Hin|].
  destruct (map_to_list m) as [|kv' items]; [discriminate Hsel|].
  reflexivity.
Qed.

(** [postselect_np] on a non-empty mapping without a key with ancilla
    bit 0: the rate is printed and the first class probability raises. *)
Lemma postselect_np_no_ancilla_key m w :
  keys_nonempty m →
  map_Forall (λ _ occurences, 0 ≤ occurences) m →
  py_sum (values m) < 2 ^ 63 →
  m ≠ ∅ →
  map_Forall (λ state _, ¬ Is_true (ancilla_is_0 state)) m →
  postselect_np m w
  = (printed_float w "Ancilla post-selection probability was found to be "
       (np_truediv 0 (py_sum (values m))),
     Raise ZeroDivisionError).
Proof.
  intros Hkeys Hnonneg Hrange Hne Hnone.
  assert (Hsel : filter (selects ancilla_is_0) (map_to_list m) = []).
  { apply filter_none, Forall_forall. intros [state occurences] Hin.
    apply elem_of_map_to_list in Hin. exact (Hnone _ _ Hin). }
  rewrite (postselect_np_behaviour_eq m w Hkeys Hnonneg Hrange).
  unfold postselect_np_behaviour, count_where. rewrite Hsel.
  destruct (map_to_list m) as [|kv items] eqn:Hitems.
  - apply map_to_list_empty_iff in Hitems. contradiction.
  - reflexivity.
Qed.


(** C5, amended: [postselect] has no check of its input.  On the empty
    mapping, and on every outcome mapping of Python ints that add up to
    0, it raises [ZeroDivisionError] at the division of the
    post-selected total by the total, before it prints anything.  On a
    non-empty outcome mapping of numpy.int64 counts that add up to 0
    that division gives [nan]: the rate is printed as [nan]; then, when
    some key has ancilla bit 0, both class probabilities are printed as
    [nan] and [None] is returned, and otherwise the division for class
    0 raises [ZeroDivisionError]. *)
Theorem postselect_zero_total m w :
  outcome_mapping m →
  py_sum (values m) = 0 →
  postselect m w = (w, Raise ZeroDivisionError)
  ∧ postselect_np ∅ w = (w, Raise ZeroDivisionError)
  ∧ (∀ state occurences,
       m !! state = Some occurences →
       Is_true (ancilla_is_0 state) →
       postselect_np m w
       = (printed_floats w (NonFinite nan) (NonFinite nan) (NonFinite nan),
          Ok tt))
  ∧ (m ≠ ∅ →
     map_Forall (λ state _, ¬ Is_true (ancilla_is_0 state)) m →
     postselect_np m w
     = (printed_float w
          "Ancilla post-selection probability was found to be "
          (NonFinite nan),
        Raise ZeroDivisionError)).
Proof.
  intros Hm Htotal.
  pose proof (outcome_mapping_keys_nonempty m Hm) as Hkeys.
  pose proof (outcome_mapping_counts_nonneg m Hm) as Hnonneg.
  destruct (count_bounds m Hnonneg) as (Hpost & Hc0 & Hc1 & _).
  assert (Hrange : py_sum (values m) < 2 ^ 63) by (rewrite Htotal; lia).
  split; [|split; [reflexivity|split]].
  - rewrite (postselect_divisions_eq m w Hkeys).
    unfold postselect_divisions. rewrite Htotal, py_truediv_zero.
    reflexivity.
  - intros state occurences Hlook Hanc.
    rewrite (postselect_np_ancilla_key m w state occurences
               Hkeys Hnonneg Hrange Hlook Hanc).
    rewrite Htotal in *.
    replace (count_where ancilla_is_0 m) with 0 in * by lia.
    replace (count_where (λ s, ancilla_is_0 s && class_is 0 s) m)
      with 0 by lia.
    replace (count_where (λ s, ancilla_is_0 s && class_is 1 s) m)
      with 0 by lia.
    reflexivity.
  - intros Hne Hnone.
    rewrite (postselect_np_no_ancilla_key m w Hkeys Hnonneg Hrange Hne Hnone).
    rewrite Htotal. reflexivity.
Qed.

(** C6, amended: on an outcome mapping with a positive total in which no
    outcome with ancilla bit 0 has a positive count, [postselect] on
    Python ints prints the acceptance rate 0 and then raises
    [ZeroDivisionError] at the division for class 0, so that no class
    probability is printed.  On numpy.int64 counts it does the same
    when no key of the mapping has ancilla bit 0; when such a key is
    there, with count 0, it prints the rate 0 and [nan] for both
    classes and returns [None] without an exception. *)
Theorem postselect_nothing_postselected m w :
  outcome_mapping m →
  0 < py_sum (values m) →
  map_Forall (λ state occurences,
    Is_true (ancilla_is_0 state) → ¬ 0 < occurences) m →
  postselect m w
  = (printed_rate w (ratio 0 (py_sum (values m))), Raise ZeroDivisionError)
  ∧ (py_sum (values m) < 2 ^ 63 →
     (map_Forall (λ state _, ¬ Is_true (ancilla_is_0 state)) m →
      postselect_np m w
      = (printed_rate w (ratio 0 (py_sum (values m))),
         Raise ZeroDivisionError))
     ∧ (∀ state occurences,
          m !! state = Some occurences →
          Is_true (ancilla_is_0 state) →
          postselect_np m w
          = (printed_floats w (Float (ratio 0 (py_sum (values m))))
               (NonFinite nan) (NonFinite nan),
             Ok tt)))
  ∧ (ratio 0 (py_sum (values m)) == 0)%Q.
Proof.
  intros Hm Htotal Hzero.
  pose proof (outcome_mapping_keys_nonempty m Hm) as Hkeys.
  pose proof (outcome_mapping_counts_nonneg m Hm) as Hnonneg.
  destruct (count_bounds m Hnonneg) as (Hpost & Hc0 & Hc1 & _).
  assert (Hpost0 : count_where ancilla_is_0 m = 0).
  { unfold count_where. apply sum_filter_zero.
    - apply outcome_mapping_nonneg, Hm.
    - apply Forall_forall. intros [state occurences] Hin.
      apply elem_of_map_to_list in Hin. exact (Hzero _ _ Hin). }
  assert (Hnp : np_truediv 0 (py_sum (values m))
                = Float (ratio 0 (py_sum (values m)))).
  { unfold np_truediv.
    destruct (Z.eqb_spec (py_sum (values m)) 0); [lia|reflexivity]. }
  split; [|split].
  - rewrite (postselect_behaviour_eq m w Hkeys Hnonneg).
    unfold postselect_behaviour. rewrite Hpost0.
    destruct (Z.eqb_spec (py_sum (values m)) 0); [lia|]. reflexivity.
  - intros Hrange. split.
    + intros Hnone.
      assert (Hne : m ≠ ∅).
      { intros ->. unfold values in Htotal.
        rewrite map_to_list_empty in Htotal. simpl in Htotal. lia. }
      rewrite (postselect_np_no_ancilla_key m w
                 Hkeys Hnonneg Hrange Hne Hnone), Hnp.
      reflexivity.
    + intros state occurences Hlook Hanc.
      rewrite (postselect_np_ancilla_key m w state occurences
                 Hkeys Hnonneg Hrange Hlook Hanc).
      rewrite Hpost0 in *. rewrite Hnp.
      replace (count_where (λ s, ancilla_is_0 s && class_is 0 s) m)
        with 0 by lia.
      replace (count_where (λ s, ancilla_is_0 s && class_is 1 s) m)
        with 0 by lia.
      reflexivity.
  - unfold ratio, Qdiv. simpl. apply Qmult_0_l.
Qed.


End Postselection.



(** ** The session and the server processes *)

Section Session.

Lemma keeps_lift {A} (r : result A) : keeps_servers (lift r).
Proof. intros w. split; reflexivity. Qed.

Lemma keeps_ret {A} (a : A) : keeps_servers (mret a : Py A).
Proof. intros w. split; reflexivity. Qed.

Lemma keeps_print (text : string) (value : Q) : keeps_servers (print text value).
Proof. intros w. split; reflexivity. Qed.

Lemma keeps_print_float (text : string) (value : float64) :
  keeps_servers (print_float text value).
Proof. intros w. destruct value; split; reflexivity. Qed.

Lemma keeps_print_line (text : string) : keeps_servers (print_line text).
Proof. intros w. split; reflexivity. Qed.

Lemma keeps_bind {A B} (c : Py A) (k : A → Py B) :
  keeps_servers c → (∀ a, keeps_servers (k a)) → keeps_servers (c ≫= k).
Proof.
  intros Hc Hk w. unfold mbind, Py_bind.
  specialize (Hc w). destruct (c w) as [w' [a|e]]; simpl in *.
  - destruct (Hk a w') as [Hq Hl]. rewrite Hq, Hl. exact Hc.
  - exact Hc.
Qed.

Lemma keeps_py_for {B} (l : list B) (body : B → Py unit) :
  (∀ b, keeps_servers (body b)) → keeps_servers (py_for l body).
Proof.
  intros Hbody. induction l as [|b l IH]; simpl.
  - apply keeps_ret.
  - apply keeps_bind; [apply Hbody|intros _; exact IH].
Qed.

Lemma keeps_print_wavefunction (wfn : string) :
  keeps_servers (print_wavefunction wfn).
Proof.
  unfold print_wavefunction, print_args.
  repeat first
    [ apply keeps_lift | apply keeps_print_line
    | apply keeps_py_for; intros ?
    | apply keeps_bind; [|intros ?] ].
Qed.

Lemma keeps_postselect (result_counts : gmap string Z) :
  keeps_servers (postselect result_counts).
Proof.
  unfold postselect.
  repeat first
    [ apply keeps_lift | apply keeps_print
    | apply keeps_bind; [|intros ?] ].
Qed.

Lemma keeps_postselect_np (result_counts : gmap string Z) :
  keeps_servers (postselect_np result_counts).
Proof.
  unfold postselect_np.
  repeat first
    [ apply keeps_lift | apply keeps_print_float
    | apply keeps_bind; [|intros ?] ].
Qed.

Lemma lifecycle_bind {A} (c : Py A) (k : A → Py unit) (w : world) :
  keeps_servers c →
  servers_alive w →
  (∀ a w', servers_alive w' → lifecycle (k a w').1 (k a w').2) →
  lifecycle ((c ≫= k) w).1 ((c ≫= k) w).2.
Proof.
  intros Hc [Hq Hl] Hk. unfold mbind, Py_bind.
  specialize (Hc w). destruct (c w) as [w' [a|e]]; simpl in Hc.
  - apply Hk. split; [rewrite <- Hq|rewrite <- Hl]; apply Hc.
  - simpl. split; [rewrite <- Hq|rewrite <- Hl]; apply Hc.
Qed.

Lemma lifecycle_terminate (w : world) :
  lifecycle ((qvm_server_terminate;; quilc_server_terminate) w).1
    ((qvm_server_terminate;; quilc_server_terminate) w).2.
Proof. split; reflexivity. Qed.

Lemma bind_init {B} (k : unit → Py B) (w : world) :
  (init_qvm_and_quilc ≫= k) w = k tt (mkWorld true true (stdout w)).
Proof. reflexivity. Qed.

(** However the session ends, the processes are terminated exactly when
    it ends without an exception. *)
Lemma session_lifecycle (qc : QuantumComputer) (w : world) :
  lifecycle (session qc w).1 (session qc w).2.
Proof.
  unfold session. rewrite bind_init.
  assert (Halive : servers_alive (mkWorld true true (stdout w)))
    by (split; reflexivity).
  revert Halive. generalize (mkWorld true true (stdout w)). intros w1 Halive.
  repeat first
    [ apply lifecycle_terminate
    | apply lifecycle_bind;
      [ first [ apply keeps_lift | apply keeps_postselect_np
              | apply keeps_print_wavefunction ]
      | assumption
      | clear dependent w1; intros ? w1 Halive ] ].
Qed.

Local Open Scope R_scope.

Lemma test_angle0_eq :
  (a ← getitem2 test_set 0 0; get_angle (Finite a))
  = Ok (Finite (2 * acos (-0.549))).
Proof.
  change (get_angle (Finite (-0.549)) = Ok (Finite (2 * acos (-0.549)))).
  apply get_angle_Finite. lra.
Qed.

Lemma test_angle1_eq :
  (a ← getitem2 test_set 1 0; get_angle (Finite a))
  = Ok (Finite (2 * acos 0.053)).
Proof.
  change (get_angle (Finite 0.053) = Ok (Finite (2 * acos 0.053))).
  apply get_angle_Finite. lra.
Qed.

Lemma training_angle_eq :
  (a ← getitem2 training_set 1 0; get_angle (Finite a))
  = Ok (Finite (2 * acos 0.78861006)).
Proof.
  change (get_angle (Finite 0.78861006)
          = Ok (Finite (2 * acos 0.78861006))).
  apply get_angle_Finite. lra.
Qed.

Local Close Scope R_scope.

Lemma session_unavailable :
  session unavailable_qc stopped_world
  = (mkWorld true true two_term_table, Raise ExecutionError).
Proof.
  unfold session. rewrite bind_init.
  rewrite test_angle0_eq, test_angle1_eq, training_angle_eq.
  reflexivity.
Qed.

Lemma session_two_shot :
  (session two_shot_qc stopped_world).2 = Ok tt.
Proof.
  unfold session. rewrite bind_init.
  rewrite test_angle0_eq, test_angle1_eq, training_angle_eq.
  reflexivity.
Qed.

(** C9 fails as stated: when the sampling call of the first run raises,
    the session ends with both server processes still alive. *)
Lemma session_failure_leaves_servers_running :
  (session unavailable_qc stopped_world).2 = Raise ExecutionError
  ∧ qvm_server_alive (session unavailable_qc stopped_world).1 = true
  ∧ quilc_server_alive (session unavailable_qc stopped_world).1 = true.
Proof. rewrite session_unavailable. repeat split. Qed.

(** C9, amended: when every step of the session completes without an
    exception, its last step has terminated both server processes; the
    termination is that last step and nothing more, so a session in
    which some step raises ends with both processes still running. *)
Theorem session_terminates_servers_on_success
    (qc : QuantumComputer) (w : world) :
  ((session qc w).2 = Ok tt → servers_terminated (session qc w).1)
  ∧ (∀ e, (session qc w).2 = Raise e → servers_alive (session qc w).1).
Proof.
  pose proof (session_lifecycle qc w) as Hlife.
  split.
  - intros Hok. rewrite Hok in Hlife. exact Hlife.
  - intros e Hraise. rewrite Hraise in Hlife. exact Hlife.
Qed.

Lemma session_terminates_servers_on_success_two_shot :
  (session two_shot_qc stopped_world).2 = Ok tt
  ∧ servers_terminated (session two_shot_qc stopped_world).1.
Proof.
  split; [exact session_two_shot|].
  apply (proj1 (session_terminates_servers_on_success
                  two_shot_qc stopped_world)).
  exact session_two_shot.
Defined.

End Session.

(** ** Concrete runs of [postselect] *)


Lemma all_zero_counts_outcome_mapping : outcome_mapping all_zero_counts.
Proof.
  unfold outcome_mapping. apply (bool_decide_unpack _). vm_compute. exact I.
Qed.

Lemma postselect_zero_total_example :
  outcome_mapping all_zero_counts
  ∧ py_sum (values all_zero_counts) = 0
  ∧ postselect all_zero_counts fresh_world
    = (fresh_world, Raise ZeroDivisionError)
  ∧ postselect_np ∅ fresh_world = (fresh_world, Raise ZeroDivisionError)
  ∧ postselect_np all_zero_counts fresh_world
    = (printed_floats fresh_world
         (NonFinite nan) (NonFinite nan) (NonFinite nan),
       Ok tt).
Proof.
  assert (Htotal : py_sum (values all_zero_counts) = 0)
    by (vm_compute; reflexivity).
  assert (Hlook : all_zero_counts !! "0000" = Some 0)
    by (vm_compute; reflexivity).
  destruct (postselect_zero_total all_zero_counts fresh_world
              all_zero_counts_outcome_mapping Htotal)
    as (Hint & Hempty & Hkey & _).
  split; [exact all_zero_counts_outcome_mapping|].
  split; [exact Htotal|].
  split; [exact Hint|]. split; [exact Hempty|].
  exact (Hkey "0000" 0 Hlook I).
Defined.

(** C5 fails as stated: on numpy.int64 counts that are all 0 [postselect]
    raises nothing; it prints [nan] three times and returns [None]. *)
Lemma postselect_np_zero_total_prints_nan :
  outcome_mapping all_zero_counts
  ∧ py_sum (values all_zero_counts) = 0
  ∧ (postselect_np all_zero_counts fresh_world).2 = Ok tt
  ∧ stdout (postselect_np all_zero_counts fresh_world).1
    = [ PrintNonFinite
          "Ancilla post-selection probability was found to be " nan;
        PrintNonFinite "Probability for class 0 is " nan;
        PrintNonFinite "Probability for class 1 is " nan ].
Proof.
  split; [exact all_zero_counts_outcome_mapping|].
  repeat split; vm_compute; reflexivity.
Qed.

(** The empty mapping, the count of a run without shots. *)
Lemma postselect_empty_mapping :
  postselect ∅ fresh_world = (fresh_world, Raise ZeroDivisionError).
Proof. reflexivity. Qed.

Lemma postselect_nothing_postselected_example :
  outcome_mapping ancilla_never_0
  ∧ 0 < py_sum (values ancilla_never_0)
  ∧ map_Forall (λ state occurences,
      Is_true (ancilla_is_0 state) → ¬ 0 < occurences) ancilla_never_0
  ∧ postselect ancilla_never_0 fresh_world
    = (printed_rate fresh_world (ratio 0 (py_sum (values ancilla_never_0))),
       Raise ZeroDivisionError)
  ∧ postselect_np ancilla_never_0 fresh_world
    = (printed_rate fresh_world (ratio 0 (py_sum (values ancilla_never_0))),
       Raise ZeroDivisionError)
  ∧ (ratio 0 (py_sum (values ancilla_never_0)) == 0)%Q.
Proof.
  assert (Hm : outcome_mapping ancilla_never_0).
  { unfold outcome_mapping. apply (bool_decide_unpack _). vm_compute. exact I. }
  assert (Htotal : 0 < py_sum (values ancilla_never_0)).
  { vm_compute. reflexivity. }
  assert (Hzero : map_Forall (λ state occurences,
      Is_true (ancilla_is_0 state) → ¬ 0 < occurences) ancilla_never_0).
  { apply (bool_decide_unpack _). vm_compute. exact I. }
  assert (Hrange : py_sum (values ancilla_never_0) < 2 ^ 63).
  { vm_compute. reflexivity. }
  assert (Hnone : map_Forall (λ state (_ : Z),
      ¬ Is_true (ancilla_is_0 state)) ancilla_never_0).
  { apply (bool_decide_unpack _). vm_compute. exact I. }
  destruct (postselect_nothing_postselected ancilla_never_0 fresh_world
              Hm Htotal Hzero) as (Hint & Hnp & Hrate).
  split; [exact Hm|]. split; [exact Htotal|]. split; [exact Hzero|].
  split; [exact Hint|].
  split; [exact (proj1 (Hnp Hrange) Hnone)|exact Hrate].
Defined.

(** C6 fails as stated: on numpy.int64 counts with a positive total
    whose only outcome with ancilla bit 0 has count 0, [postselect]
    raises nothing; it prints the rate 0 and [nan] for both class
    probabilities, and returns [None]. *)
Lemma postselect_np_prints_nan_class_probabilities :
  outcome_mapping zero_ancilla_counts
  ∧ 0 < py_sum (values zero_ancilla_counts)
  ∧ map_Forall (λ state occurences,
      Is_true (ancilla_is_0 state) → ¬ 0 < occurences) zero_ancilla_counts
  ∧ (postselect_np zero_ancilla_counts fresh_world).2 = Ok tt
  ∧ stdout (postselect_np zero_ancilla_counts fresh_world).1
    = [ Print "Ancilla post-selection probability was found to be " (0 # 4);
        PrintNonFinite "Probability for class 0 is " nan;
        PrintNonFinite "Probability for class 1 is " nan ].
Proof.
  split.
  { unfold outcome_mapping. apply (bool_decide_unpack _). vm_compute. exact I. }
  split; [vm_compute; reflexivity|].
  split; [apply (bool_decide_unpack _); vm_compute; exact I|].
  split; vm_compute; reflexivity.
Qed.



(** * Further properties *)

(** ** The angle encoder, continued *)

Section AngleEncoderMore.
Local Open Scope R_scope.

Lemma unit_vector_first_coordinate (x y : R) :
  x * x + y * y = 1 → -1 <= x <= 1.
Proof. intros Hunit. nra. Qed.

Lemma unit_vector_second_coordinate (x y : R) :
  x * x + y * y = 1 → sqrt (1 - x²) = Rabs y.
Proof.
  intros Hunit. rewrite <- sqrt_Rsqr_abs. f_equal. unfold Rsqr. lra.
Qed.

(** For a unit vector [(x, y)] the angle returned for [x] has half-angle
    cosine [x] and half-angle sine [|y|]: the encoding recovers the first
    coordinate, and the second one up to its sign. *)
Theorem get_angle_unit_vector (x y : R) :
  x * x + y * y = 1 →
  ∃ angle,
    get_angle (Finite x) = Ok (Finite angle)
    ∧ cos (angle / 2) = x
    ∧ sin (angle / 2) = Rabs y.
Proof.
  intros Hunit.
  pose proof (unit_vector_first_coordinate x y Hunit) as Hx.
  exists (2 * acos x). split; [exact (get_angle_Finite x Hx)|].
  replace (2 * acos x / 2) with (acos x) by lra.
  split; [exact (cos_acos x Hx)|].
  rewrite (sin_acos x Hx). exact (unit_vector_second_coordinate x y Hunit).
Qed.

Lemma get_angle_unit_vector_example :
  0 * 0 + (-1) * (-1) = 1
  ∧ ∃ angle,
      get_angle (Finite 0) = Ok (Finite angle)
      ∧ cos (angle / 2) = 0
      ∧ sin (angle / 2) = Rabs (-1).
Proof.
  split; [lra | apply (get_angle_unit_vector 0 (-1)); lra].
Defined.

End AngleEncoderMore.

(** ** The user-defined gates *)

Section Gates.
Local Open Scope R_scope.

Lemma half_sum (a b : R) : (a + b) / 2 = a / 2 + b / 2.
Proof. lra. Qed.

Lemma half_opp (a : R) : (- a) / 2 = - (a / 2).
Proof. lra. Qed.

Ltac matrix_entries := repeat (f_equal; try ring).

Lemma cry_mul (a b : R) :
  mat_mul (matrix_at cry_definition [a]) (matrix_at cry_definition [b])
  = matrix_at cry_definition [a + b].
Proof.
  unfold mat_mul, matrix_at, column, dot. simpl.
  rewrite half_sum, cos_plus, sin_plus. matrix_entries.
Qed.

Lemma cry_zero : matrix_at cry_definition [0] = identity_matrix 4.
Proof.
  unfold matrix_at, identity_matrix, basis. simpl.
  replace (0 / 2) with 0 by lra. rewrite cos_0, sin_0. matrix_entries.
Qed.

Lemma cry_transpose (a : R) :
  transpose (matrix_at cry_definition [a]) = matrix_at cry_definition [- a].
Proof.
  unfold transpose, matrix_at, column. simpl.
  rewrite half_opp, cos_neg, sin_neg. matrix_entries.
Qed.

Lemma ccry_mul (a b : R) :
  mat_mul (matrix_at ccry_definition [a]) (matrix_at ccry_definition [b])
  = matrix_at ccry_definition [a + b].
Proof.
  unfold mat_mul, matrix_at, column, dot. simpl.
  rewrite half_sum, cos_plus, sin_plus. matrix_entries.
Qed.

Lemma ccry_zero : matrix_at ccry_definition [0] = identity_matrix 8.
Proof.
  unfold matrix_at, identity_matrix, basis. simpl.
  replace (0 / 2) with 0 by lra. rewrite cos_0, sin_0. matrix_entries.
Qed.

Lemma ccry_transpose (a : R) :
  transpose (matrix_at ccry_definition [a]) = matrix_at ccry_definition [- a].
Proof.
  unfold transpose, matrix_at, column. simpl.
  rewrite half_opp, cos_neg, sin_neg. matrix_entries.
Qed.

(** The matrix of CRY at one angle times the matrix at another is the
    matrix at the sum of the angles, and at angle 0 it is the identity. *)
Theorem cry_matrix_compose (a b : R) :
  mat_mul (matrix_at cry_definition [a]) (matrix_at cry_definition [b])
  = matrix_at cry_definition [a + b]
  ∧ matrix_at cry_definition [0] = identity_matrix 4.
Proof. split; [apply cry_mul | apply cry_zero]. Qed.

(** The matrix of CRY is orthogonal at every angle: its transpose is the
    matrix at the opposite angle and is its inverse on both sides. *)
Theorem cry_matrix_orthogonal (a : R) :
  transpose (matrix_at cry_definition [a]) = matrix_at cry_definition [- a]
  ∧ mat_mul (matrix_at cry_definition [a])
      (transpose (matrix_at cry_definition [a])) = identity_matrix 4
  ∧ mat_mul (transpose (matrix_at cry_definition [a]))
      (matrix_at cry_definition [a]) = identity_matrix 4.
Proof.
  split; [apply cry_transpose|]. rewrite cry_transpose, !cry_mul.
  replace (a + - a) with 0 by lra. replace (- a + a) with 0 by lra.
  split; apply cry_zero.
Qed.

(** The matrix of CCRY at one angle times the matrix at another is the
    matrix at the sum of the angles, and at angle 0 it is the identity. *)
Theorem ccry_matrix_compose (a b : R) :
  mat_mul (matrix_at ccry_definition [a]) (matrix_at ccry_definition [b])
  = matrix_at ccry_definition [a + b]
  ∧ matrix_at ccry_definition [0] = identity_matrix 8.
Proof. split; [apply ccry_mul | apply ccry_zero]. Qed.

(** The matrix of CCRY is orthogonal at every angle: its transpose is the
    matrix at the opposite angle and is its inverse on both sides. *)
Theorem ccry_matrix_orthogonal (a : R) :
  transpose (matrix_at ccry_definition [a]) = matrix_at ccry_definition [- a]
  ∧ mat_mul (matrix_at ccry_definition [a])
      (transpose (matrix_at ccry_definition [a])) = identity_matrix 8
  ∧ mat_mul (transpose (matrix_at ccry_definition [a]))
      (matrix_at ccry_definition [a]) = identity_matrix 8.
Proof.
  split; [apply ccry_transpose|]. rewrite ccry_transpose, !ccry_mul.
  replace (a + - a) with 0 by lra. replace (- a + a) with 0 by lra.
  split; apply ccry_zero.
Qed.

(** While a control is off the gates change nothing: CRY fixes the
    first two basis vectors and CCRY the first six, at every angle. *)
Theorem gates_fix_uncontrolled_basis (a : R) (k : nat) :
  ((k < 2)%nat →
     mat_vec (matrix_at cry_definition [a]) (basis 4 k) = basis 4 k)
  ∧ ((k < 6)%nat →
     mat_vec (matrix_at ccry_definition [a]) (basis 8 k) = basis 8 k).
Proof.
  split; intros Hk.
  - destruct k as [|[|k]]; [| |lia];
      unfold mat_vec, matrix_at, dot, basis; simpl; matrix_entries.
  - destruct k as [|[|[|[|[|[|k]]]]]]; [| | | | | |lia];
      unfold mat_vec, matrix_at, dot, basis; simpl; matrix_entries.
Qed.

Lemma gates_fix_uncontrolled_basis_example :
  (1 < 2)%nat ∧ (1 < 6)%nat
  ∧ mat_vec (matrix_at cry_definition [PI]) (basis 4 1) = basis 4 1
  ∧ mat_vec (matrix_at ccry_definition [PI]) (basis 8 1) = basis 8 1.
Proof.
  split; [lia|]. split; [lia|].
  destruct (gates_fix_uncontrolled_basis PI 1) as [Hcry Hccry].
  split; [apply Hcry | apply Hccry]; lia.
Defined.

(** Amplitude encoding: for a unit vector [(x, y)], the gates at the
    angle that [get_angle] returns for [x] send the basis vector with
    every control on and the target off to [x] on that vector and [|y|]
    on the one with the target on. *)
Theorem gates_encode_unit_vector (x y : R) :
  x * x + y * y = 1 →
  ∃ angle,
    get_angle (Finite x) = Ok (Finite angle)
    ∧ mat_vec (matrix_at cry_definition [angle]) (basis 4 2)
      = [0; 0; x; Rabs y]
    ∧ mat_vec (matrix_at ccry_definition [angle]) (basis 8 6)
      = [0; 0; 0; 0; 0; 0; x; Rabs y].
Proof.
  intros Hunit.
  pose proof (unit_vector_first_coordinate x y Hunit) as Hx.
  pose proof (unit_vector_second_coordinate x y Hunit) as Hy.
  exists (2 * acos x). split; [exact (get_angle_Finite x Hx)|].
  unfold mat_vec, matrix_at, dot, basis. simpl.
  replace (2 * acos x / 2) with (acos x) by lra.
  rewrite (cos_acos x Hx), (sin_acos x Hx), Hy.
  split; matrix_entries.
Qed.

Lemma gates_encode_unit_vector_example :
  0 * 0 + (-1) * (-1) = 1
  ∧ ∃ angle,
      get_angle (Finite 0) = Ok (Finite angle)
      ∧ mat_vec (matrix_at cry_definition [angle]) (basis 4 2)
        = [0; 0; 0; Rabs (-1)]
      ∧ mat_vec (matrix_at ccry_definition [angle]) (basis 8 6)
        = [0; 0; 0; 0; 0; 0; 0; Rabs (-1)].
Proof.
  split; [lra | apply (gates_encode_unit_vector 0 (-1)); lra].
Defined.

End Gates.

(** ** Post-selection on arbitrary mappings *)

Section PostselectionGeneral.

Implicit Types (m : gmap string Z) (w : world) (l : list (string * Z)).

(** On a mapping of non-negative counts in which no key is the empty
    string, whatever the keys otherwise are, [postselect] on Python
    ints raises [ZeroDivisionError] without printing when the total is
    0, prints the rate 0 and raises [ZeroDivisionError] when the total
    is not 0 but the post-selected total is, and otherwise prints the
    three statistics and returns.  On numpy.int64 counts with a total
    below 2^63 it raises without printing on the empty mapping only;
    otherwise it prints the rate, then raises [ZeroDivisionError] when
    no key is post-selected, and otherwise prints the two class
    probabilities and returns; a division by a total that is 0 is
    printed as [nan]. *)
Theorem postselect_complete_behaviour m w :
  keys_nonempty m →
  map_Forall (λ _ occurences, 0 ≤ occurences) m →
  postselect m w = postselect_behaviour m w
  ∧ (py_sum (values m) < 2 ^ 63 →
     postselect_np m w = postselect_np_behaviour m w).
Proof.
  intros Hkeys Hnonneg. split.
  - exact (postselect_behaviour_eq m w Hkeys Hnonneg).
  - exact (postselect_np_behaviour_eq m w Hkeys Hnonneg).
Qed.

(** [postselect] raises [IndexError], before it prints anything, exactly
    when the empty string is a key of the mapping. *)
Theorem postselect_index_error_iff_empty_key m w :
  postselect m w = (w, Raise IndexError) ↔ is_Some (m !! "").
Proof.
  split.
  - intros Hraise. destruct (m !! "") as [c|] eqn:Hlook; [eauto|].
    exfalso.
    assert (Hkeys : keys_nonempty m)
      by (intros state occ Hs ->; congruence).
    rewrite (postselect_divisions_eq m w Hkeys) in Hraise.
    unfold postselect_divisions in Hraise.
    repeat match type of Hraise with
    | context [py_truediv ?a ?b] =>
        let H := fresh "Hdiv" in
        destruct (py_truediv a b) as [?|?] eqn:H;
        [|apply py_truediv_raises in H; destruct H; subst]
    end; congruence.
  - intros [c Hlook]. unfold postselect.
    rewrite (post_select_empty_key m c Hlook). reflexivity.
Qed.


Lemma appends_only_lift {A} (r : result A) : appends_only (lift r).
Proof. intros w. repeat split; reflexivity. Qed.

Lemma appends_only_print (text : string) (value : Q) :
  appends_only (print text value).
Proof.
  intros w. repeat split; simpl. apply prefix_app_r. reflexivity.
Qed.

Lemma appends_only_bind {A B} (c : Py A) (k : A → Py B) :
  appends_only c → (∀ a, appends_only (k a)) → appends_only (c ≫= k).
Proof.
  intros Hc Hk w. unfold mbind, Py_bind.
  destruct (Hc w) as (Hq & Hl & Hout).
  destruct (c w) as [w' [a|e]]; simpl in *; [|auto].
  destruct (Hk a w') as (Hq' & Hl' & Hout').
  rewrite Hq', Hl'. repeat split; [assumption..|].
  etransitivity; eassumption.
Qed.

Lemma appends_only_postselect m : appends_only (postselect m).
Proof.
  unfold postselect.
  repeat first
    [ apply appends_only_lift | apply appends_only_print
    | apply appends_only_bind; [|intros ?] ].
Qed.

(** Whatever the mapping is and whether it returns or raises,
    [postselect] leaves the two server processes as they are and keeps
    everything printed before it: it only adds to standard output. *)
Theorem postselect_only_appends m w :
  qvm_server_alive (postselect m w).1 = qvm_server_alive w
  ∧ quilc_server_alive (postselect m w).1 = quilc_server_alive w
  ∧ stdout w `prefix_of` stdout (postselect m w).1.
Proof. exact (appends_only_postselect m w). Qed.


End PostselectionGeneral.

Lemma mixed_counts_keys_nonempty : keys_nonempty mixed_counts.
Proof.
  unfold keys_nonempty. apply (bool_decide_unpack _). vm_compute. exact I.
Defined.

Lemma mixed_counts_nonneg :
  map_Forall (λ _ occurences, 0 ≤ occurences) mixed_counts.
Proof. apply (bool_decide_unpack _). vm_compute. exact I. Defined.

Lemma postselect_complete_behaviour_example :
  keys_nonempty mixed_counts
  ∧ map_Forall (λ _ occurences, 0 ≤ occurences) mixed_counts
  ∧ py_sum (values mixed_counts) < 2 ^ 63
  ∧ postselect mixed_counts fresh_world
    = postselect_behaviour mixed_counts fresh_world
  ∧ postselect_np mixed_counts fresh_world
    = postselect_np_behaviour mixed_counts fresh_world.
Proof.
  assert (Hrange : py_sum (values mixed_counts) < 2 ^ 63)
    by (vm_compute; reflexivity).
  destruct (postselect_complete_behaviour mixed_counts fresh_world
              mixed_counts_keys_nonempty mixed_counts_nonneg)
    as [Hint Hnp].
  split; [exact mixed_counts_keys_nonempty|].
  split; [exact mixed_counts_nonneg|]. split; [exact Hrange|].
  split; [exact Hint | exact (Hnp Hrange)].
Defined.


Lemma postselect_index_error_iff_empty_key_example :
  is_Some (counts_with_empty_key !! "")
  ∧ postselect counts_with_empty_key fresh_world
    = (fresh_world, Raise IndexError).
Proof.
  assert (Hkey : is_Some (counts_with_empty_key !! ""))
    by (exists 1; vm_compute; reflexivity).
  split; [exact Hkey|].
  apply (proj2 (postselect_index_error_iff_empty_key
                  counts_with_empty_key fresh_world)).
  exact Hkey.
Defined.


(** On [mixed_counts] the class probabilities are 0 and 2/3. *)
Example postselect_mixed_counts :
  postselect mixed_counts fresh_world
  = (printed_statistics fresh_world (3 # 8) (0 # 3) (2 # 3), Ok tt).
Proof. vm_compute. reflexivity. Qed.

(** ** From sampled rows to counts *)

Section Counting.

Implicit Types (m : gmap string Z) (measures : list (list bool))
  (row : list bool).

Lemma outcome_key_cons (b : bool) row :
  outcome_key (b :: row)
  = String (if b then "1" else "0")%char (outcome_key row).
Proof.
  unfold outcome_key. destruct row as [|b' row]; destruct b; reflexivity.
Qed.

Lemma outcome_key_inj row1 row2 :
  outcome_key row1 = outcome_key row2 → row1 = row2.
Proof.
  revert row2. induction row1 as [|b1 row1 IH]; intros [|b2 row2] Heq.
  - reflexivity.
  - rewrite outcome_key_cons in Heq. discriminate.
  - rewrite outcome_key_cons in Heq. discriminate.
  - rewrite !outcome_key_cons in Heq. inversion Heq as [[Hb Hrest]].
    rewrite (IH row2 Hrest). destruct b1, b2; congruence.
Qed.

Lemma outcome_key_nonempty row : row ≠ [] → outcome_key row ≠ "".
Proof.
  destruct row as [|b row]; [congruence|].
  intros _. rewrite outcome_key_cons. discriminate.
Qed.

Lemma outcome_key_snoc row (b : bool) :
  outcome_key (row ++ [b])
  = (outcome_key row +:+ String (if b then "1" else "0")%char "").
Proof.
  induction row as [|b' row IH].
  - destruct b; reflexivity.
  - rewrite <- app_comm_cons, !outcome_key_cons, IH. reflexivity.
Qed.

Lemma str_getitem_0_cons (a : ascii) (rest : string) :
  str_getitem (String a rest) 0 = Ok (String a "").
Proof.
  unfold str_getitem. simpl String.length.
  replace (0 <? 0) with false by reflexivity.
  replace ((0 <=? 0) && (0 <? Z.of_nat (S (String.length rest)))) with true
    by (symmetry; apply andb_true_intro; split; [reflexivity|];
        apply Z.ltb_lt; lia).
  reflexivity.
Qed.

Lemma string_length_snoc (s : string) (d : ascii) :
  String.length (s +:+ String d "") = S (String.length s).
Proof. induction s as [|a s IH]; simpl; [reflexivity|]. rewrite IH. reflexivity. Qed.

Lemma string_get_snoc (s : string) (d : ascii) :
  String.get (String.length s) (s +:+ String d "") = Some d.
Proof. induction s as [|a s IH]; simpl; [reflexivity|exact IH]. Qed.

Lemma str_getitem_last_snoc (s : string) (d : ascii) :
  str_getitem (s +:+ String d "") (-1) = Ok (String d "").
Proof.
  unfold str_getitem. rewrite string_length_snoc.
  replace (-1 <? 0) with true by reflexivity.
  replace ((0 <=? -1 + Z.of_nat (S (String.length s)))
           && (-1 + Z.of_nat (S (String.length s))
               <? Z.of_nat (S (String.length s)))) with true
    by (symmetry; apply andb_true_intro; split;
        [apply Z.leb_le|apply Z.ltb_lt]; lia).
  replace (Z.to_nat (-1 + Z.of_nat (S (String.length s))))
    with (String.length s) by lia.
  rewrite string_get_snoc. reflexivity.
Qed.

Lemma ancilla_is_0_key row :
  ancilla_is_0 (outcome_key row) = ancilla_bit_0 row.
Proof.
  destruct row as [|b row]; [reflexivity|].
  rewrite outcome_key_cons. unfold ancilla_is_0.
  rewrite str_getitem_0_cons. destruct b; reflexivity.
Qed.

Lemma class_is_key row :
  class_is 0 (outcome_key row) = class_bit false row
  ∧ class_is 1 (outcome_key row) = class_bit true row.
Proof.
  destruct row as [|b row _] using rev_ind; [split; reflexivity|].
  rewrite outcome_key_snoc. unfold class_is, class_bit.
  rewrite str_getitem_last_snoc, last_snoc.
  destruct b; split; reflexivity.
Qed.

Lemma decide_selects (P : string → bool) (kv : string * Z) (a b : Z) :
  (if decide (selects P kv) then a else b) = if P kv.1 then a else b.
Proof.
  case_decide as Hsel; unfold selects in Hsel;
    destruct (P kv.1); simpl in Hsel; tauto || reflexivity.
Qed.

Lemma count_where_insert_fresh (P : string → bool) m (k : string) (v : Z) :
  m !! k = None →
  count_where P (<[k:=v]> m) = (if P k then v else 0) + count_where P m.
Proof.
  intros Hfresh. unfold count_where.
  rewrite (py_sum_Permutation _
             ((filter (selects P) ((k, v) :: map_to_list m)).*2)).
  - rewrite py_sum_filter_cons, (decide_selects P (k, v)). reflexivity.
  - apply fmap_Permutation, filter_Permutation.
    apply map_to_list_insert. exact Hfresh.
Qed.

Lemma count_where_insert (P : string → bool) m (k : string) (v : Z) :
  count_where P (<[k:=v]> m)
  = (if P k then v - default 0 (m !! k) else 0) + count_where P m.
Proof.
  destruct (m !! k) as [v0|] eqn:Hlook; simpl.
  - rewrite <- (insert_delete_eq m k v).
    rewrite <- (insert_delete_id m k v0 Hlook) at 2.
    rewrite !count_where_insert_fresh by apply lookup_delete_eq.
    destruct (P k); lia.
  - rewrite (count_where_insert_fresh P m k v Hlook).
    destruct (P k); lia.
Qed.

Lemma count_where_count_outcomes (P : string → bool) measures :
  count_where P (count_outcomes measures)
  = shots_where (λ row, P (outcome_key row)) measures.
Proof.
  unfold shots_where. induction measures as [|row measures IH];
    [reflexivity|].
  simpl count_outcomes. rewrite count_where_insert, IH, filter_cons.
  case_decide as Hsel; destruct (P (outcome_key row));
    simpl in Hsel; try tauto; simpl length; lia.
Qed.

Lemma filter_selects_all (l : list (string * Z)) :
  filter (selects (λ _, true)) l = l.
Proof.
  induction l as [|kv l IH]; [reflexivity|].
  rewrite filter_cons, IH. case_decide as Hsel; [reflexivity|].
  exfalso. apply Hsel. exact I.
Qed.

Lemma total_is_count_where m : py_sum (values m) = count_where (λ _, true) m.
Proof. unfold values, count_where. rewrite filter_selects_all. reflexivity. Qed.

Lemma shots_where_all measures :
  shots_where (λ _, true) measures = Z.of_nat (length measures).
Proof.
  unfold shots_where. f_equal. f_equal.
  induction measures as [|row measures IH]; [reflexivity|].
  rewrite filter_cons, IH. reflexivity.
Qed.

Lemma shots_where_ext (P Q : list bool → bool) measures :
  (∀ row, P row = Q row) → shots_where P measures = shots_where Q measures.
Proof.
  intros Hext. unfold shots_where. f_equal. f_equal.
  apply list_filter_iff. intros row. rewrite Hext. reflexivity.
Qed.

Lemma count_outcomes_total_eq measures :
  py_sum (values (count_outcomes measures)) = Z.of_nat (length measures).
Proof.
  rewrite total_is_count_where, count_where_count_outcomes.
  apply shots_where_all.
Qed.

(** The counts of the dict built from the sampled rows add up to the
    number of rows, that is, to the number of shots. *)
Theorem count_outcomes_total measures :
  py_sum (values (count_outcomes measures)) = Z.of_nat (length measures).
Proof. exact (count_outcomes_total_eq measures). Qed.

Lemma count_outcomes_lookup_key measures (state : string) :
  count_outcomes measures !! state
  = match length (filter (λ row, outcome_key row = state) measures) with
    | O => None
    | S n => Some (Z.of_nat (S n))
    end.
Proof.
  induction measures as [|row measures IH]; [reflexivity|].
  simpl count_outcomes. rewrite lookup_insert, filter_cons.
  destruct (decide (outcome_key row = state)) as [->|Hne].
  - rewrite IH. simpl length.
    destruct (length (filter _ measures)); simpl; f_equal; lia.
  - exact IH.
Qed.

Lemma filter_length_pos {A} (P : A → Prop) `{!∀ x, Decision (P x)}
    (l : list A) :
  (0 < length (filter P l))%nat ↔ Exists P l.
Proof.
  rewrite Exists_exists. split.
  - intros Hlen. destruct (filter P l) as [|x rest] eqn:Hfilter;
      [simpl in Hlen; lia|].
    exists x. apply and_comm, (list_elem_of_filter P). rewrite Hfilter. left.
  - intros (x & Hin & HP).
    assert (Hx : x ∈ filter P l) by (apply list_elem_of_filter; auto).
    destruct (filter P l); [inversion Hx|simpl; lia].
Qed.

Lemma count_outcomes_key_sampled measures (state : string) (n : Z) :
  count_outcomes measures !! state = Some n →
  1 ≤ n ∧ ∃ row, row ∈ measures ∧ outcome_key row = state.
Proof.
  rewrite count_outcomes_lookup_key.
  destruct (length (filter _ measures)) as [|k] eqn:Hlen; [discriminate|].
  intros [= <-]. split; [lia|].
  assert (Hpos : (0 < length
            (filter (λ row, outcome_key row = state) measures))%nat) by lia.
  apply filter_length_pos, Exists_exists in Hpos as (row & Hin & Hkey).
  exists row. split; assumption.
Qed.

(** The dict built from the sampled rows files under the string of a
    row the number of times the row was sampled; a row that was never
    sampled has no entry, and every key is the string of a sampled row. *)
Theorem count_outcomes_lookup measures row (state : string) :
  count_outcomes measures !! outcome_key row
  = (if decide (row ∈ measures)
     then Some (Z.of_nat (length (filter (λ r, r = row) measures)))
     else None)
  ∧ (is_Some (count_outcomes measures !! state) →
     ∃ r, r ∈ measures ∧ state = outcome_key r).
Proof.
  split.
  - rewrite count_outcomes_lookup_key.
    rewrite (list_filter_iff (λ r, outcome_key r = outcome_key row)
               (λ r, r = row))
      by (intros r; split; [apply outcome_key_inj|intros ->; reflexivity]).
    destruct (decide (row ∈ measures)) as [Hin|Hnotin].
    + assert (Hpos : (0 < length (filter (λ r, r = row) measures))%nat).
      { apply filter_length_pos, Exists_exists. exists row. auto. }
      destruct (length (filter _ measures)); [lia|reflexivity].
    + destruct (length (filter (λ r, r = row) measures)) eqn:Hlen;
        [reflexivity|].
      exfalso. apply Hnotin.
      assert (Hpos : (0 < length (filter (λ r, r = row) measures))%nat)
        by lia.
      apply filter_length_pos, Exists_exists in Hpos as (r & Hin & ->).
      exact Hin.
  - intros [n Hlook].
    destruct (count_outcomes_key_sampled measures state n Hlook)
      as (_ & r & Hin & Hkey).
    exists r. split; [exact Hin|symmetry; exact Hkey].
Qed.

Lemma count_outcomes_lookup_example :
  is_Some (count_outcomes example_measures !! "0001")
  ∧ ∃ r, r ∈ example_measures ∧ "0001" = outcome_key r.
Proof.
  assert (Hsome : is_Some (count_outcomes example_measures !! "0001"))
    by (exists 2; vm_compute; reflexivity).
  split; [exact Hsome|].
  apply (proj2 (count_outcomes_lookup example_measures [] "0001")).
  exact Hsome.
Defined.

Lemma outcome_key_outcome_string row :
  length row = 4%nat → Is_true (outcome_string (outcome_key row)).
Proof.
  destruct row as [|b0 [|b1 [|b2 [|b3 [|b4 row]]]]]; try discriminate.
  intros _. destruct b0, b1, b2, b3; exact I.
Qed.

(** When every sampled row has four bits, the dict built from the rows
    maps 4-bit outcome strings to counts that are at least 1. *)
Theorem count_outcomes_outcome_mapping measures :
  Forall (λ row, length row = 4%nat) measures →
  outcome_mapping (count_outcomes measures)
  ∧ map_Forall (λ _ occurences, 1 ≤ occurences) (count_outcomes measures).
Proof.
  intros Hrows. rewrite Forall_forall in Hrows.
  split; intros state n Hlook;
    destruct (count_outcomes_key_sampled measures state n Hlook)
      as (Hn & row & Hin & <-).
  - split; [apply outcome_key_outcome_string, Hrows, Hin|lia].
  - exact Hn.
Qed.

Lemma example_measures_four_bits :
  Forall (λ row, length row = 4%nat) example_measures.
Proof. repeat constructor. Defined.

Lemma count_outcomes_outcome_mapping_example :
  Forall (λ row, length row = 4%nat) example_measures
  ∧ outcome_mapping (count_outcomes example_measures)
  ∧ map_Forall (λ _ occurences, 1 ≤ occurences)
      (count_outcomes example_measures).
Proof.
  split; [exact example_measures_four_bits|].
  apply (count_outcomes_outcome_mapping example_measures).
  exact example_measures_four_bits.
Defined.

Lemma count_outcomes_keys_nonempty measures :
  Forall (λ row, row ≠ []) measures → keys_nonempty (count_outcomes measures).
Proof.
  intros Hrows state n Hlook. rewrite Forall_forall in Hrows.
  destruct (count_outcomes_key_sampled measures state n Hlook)
    as (_ & row & Hin & <-).
  apply outcome_key_nonempty, Hrows, Hin.
Qed.

Lemma count_outcomes_positive measures :
  map_Forall (λ _ occurences, 1 ≤ occurences) (count_outcomes measures).
Proof.
  intros state n Hlook.
  exact (proj1 (count_outcomes_key_sampled measures state n Hlook)).
Qed.

Lemma count_outcomes_nonneg measures :
  map_Forall (λ _ occurences, 0 ≤ occurences) (count_outcomes measures).
Proof.
  intros state n Hlook.
  pose proof (count_outcomes_positive measures state n Hlook) as Hpos.
  simpl in Hpos. simpl. lia.
Qed.

Lemma postselect_on_shots_eq measures (w : world) :
  Forall (λ row, row ≠ []) measures →
  postselect (count_outcomes measures) w = postselect_on_shots measures w.
Proof.
  intros Hrows.
  rewrite (postselect_behaviour_eq _ w
             (count_outcomes_keys_nonempty measures Hrows)
             (count_outcomes_nonneg measures)).
  unfold postselect_behaviour, postselect_on_shots.
  rewrite count_outcomes_total_eq, !count_where_count_outcomes.
  rewrite (shots_where_ext (λ row, ancilla_is_0 (outcome_key row))
             ancilla_bit_0) by apply ancilla_is_0_key.
  rewrite (shots_where_ext
             (λ row, ancilla_is_0 (outcome_key row)
                     && class_is 0 (outcome_key row))
             (λ row, ancilla_bit_0 row && class_bit false row))
    by (intros row; rewrite ancilla_is_0_key, (proj1 (class_is_key row));
        reflexivity).
  rewrite (shots_where_ext
             (λ row, ancilla_is_0 (outcome_key row)
                     && class_is 1 (outcome_key row))
             (λ row, ancilla_bit_0 row && class_bit true row))
    by (intros row; rewrite ancilla_is_0_key, (proj2 (class_is_key row));
        reflexivity).
  reflexivity.
Qed.

(** The same on the numpy.int64 counts that [np.unique] returns. *)
Lemma postselect_np_on_shots_eq measures (w : world) :
  Forall (λ row, row ≠ []) measures →
  Z.of_nat (length measures) < 2 ^ 63 →
  postselect_np (count_outcomes measures) w = postselect_on_shots measures w.
Proof.
  intros Hrows Hrange.
  rewrite (postselect_np_agrees _ w
             (count_outcomes_keys_nonempty measures Hrows)
             (count_outcomes_positive measures))
    by (rewrite count_outcomes_total_eq; exact Hrange).
  exact (postselect_on_shots_eq measures w Hrows).
Qed.

(** Counting the sampled rows and post-selecting: when no row is empty,
    the acceptance rate printed is the share of the rows whose first bit
    is 0, and the probability printed for a class is the share of those
    rows whose last bit is the class; without rows, or without a row
    whose first bit is 0, [ZeroDivisionError] is raised. *)
Theorem postselect_after_counting measures (w : world) :
  Forall (λ row, row ≠ []) measures →
  postselect (count_outcomes measures) w = postselect_on_shots measures w.
Proof. exact (postselect_on_shots_eq measures w). Qed.

Lemma example_measures_nonempty : Forall (λ row, row ≠ []) example_measures.
Proof. repeat constructor; discriminate. Defined.

Lemma postselect_after_counting_example :
  Forall (λ row, row ≠ []) example_measures
  ∧ postselect (count_outcomes example_measures) fresh_world
    = postselect_on_shots example_measures fresh_world.
Proof.
  split; [exact example_measures_nonempty|].
  apply (postselect_after_counting example_measures fresh_world).
  exact example_measures_nonempty.
Defined.

Lemma shots_where_pos (P : list bool → bool) measures :
  0 < shots_where P measures ↔ Exists (λ row, Is_true (P row)) measures.
Proof.
  unfold shots_where. rewrite <- filter_length_pos.
  split; intros Hpos; [apply Nat2Z.inj_lt|apply Nat2Z.inj_lt in Hpos];
    exact Hpos.
Qed.

(** Counting the sampled rows and post-selecting returns exactly when
    some sampled row has first bit 0; otherwise it raises
    [ZeroDivisionError]. *)
Theorem postselect_after_counting_returns_iff measures (w : world) :
  Forall (λ row, row ≠ []) measures →
  ((postselect (count_outcomes measures) w).2 = Ok tt
   ↔ Exists (λ row, Is_true (ancilla_bit_0 row)) measures)
  ∧ ((postselect (count_outcomes measures) w).2 = Ok tt
     ∨ (postselect (count_outcomes measures) w).2 = Raise ZeroDivisionError).
Proof.
  intros Hrows. rewrite (postselect_on_shots_eq measures w Hrows).
  unfold postselect_on_shots. rewrite <- shots_where_pos.
  assert (Hle : shots_where ancilla_bit_0 measures
                ≤ Z.of_nat (length measures)).
  { unfold shots_where. apply inj_le, length_filter. }
  destruct (Z.eqb_spec (Z.of_nat (length measures)) 0) as [Hshots|Hshots].
  { simpl. split; [|right; reflexivity].
    split; [discriminate|]. intros Hpos. lia. }
  destruct (Z.eqb_spec (shots_where ancilla_bit_0 measures) 0) as [Hacc|Hacc].
  { simpl. split; [|right; reflexivity].
    split; [discriminate|]. intros Hpos. lia. }
  simpl. split; [|left; reflexivity].
  split; [|reflexivity]. intros _.
  assert (0 ≤ shots_where ancilla_bit_0 measures)
    by (unfold shots_where; lia).
  lia.
Qed.

Lemma postselect_after_counting_returns_iff_example :
  Forall (λ row, row ≠ []) example_measures
  ∧ Exists (λ row, Is_true (ancilla_bit_0 row)) example_measures
  ∧ (postselect (count_outcomes example_measures) fresh_world).2 = Ok tt.
Proof.
  assert (Hex : Exists (λ row, Is_true (ancilla_bit_0 row)) example_measures)
    by (left; exact I).
  split; [exact example_measures_nonempty|]. split; [exact Hex|].
  apply (proj1 (postselect_after_counting_returns_iff example_measures
                  fresh_world example_measures_nonempty)).
  exact Hex.
Defined.

End Counting.

(** ** Well-formed circuits *)

Section WellFormed.




(** With fewer than two angles the builder raises [IndexError]. *)
Theorem prepare_state_too_few_angles (angles : list np_float) :
  (length angles < 2)%nat → prepare_state angles = Raise IndexError.
Proof.
  destruct angles as [|a0 [|a1 rest]]; simpl; [reflexivity..|lia].
Qed.

Lemma prepare_state_too_few_angles_example :
  (length [NaN] < 2)%nat ∧ prepare_state [NaN] = Raise IndexError.
Proof.
  split; [simpl; lia|].
  apply (prepare_state_too_few_angles [NaN]). simpl. lia.
Defined.

(** Whatever the angles are, a circuit that [prepare_state] returns is
    well formed: CRY and CCRY are applied after their definitions, with
    one parameter and on as many qubits as their matrices require, and
    every gate acts on distinct qubits of the 4-qubit machine. *)
Theorem prepare_state_well_formed (angles : list np_float) (c : Program) :
  prepare_state angles = Ok c → well_formed c = true.
Proof.
  destruct angles as [|a0 [|a1 rest]]; try discriminate.
  intros [= <-]. reflexivity.
Qed.

Lemma prepare_state_well_formed_example :
  ∃ c, prepare_state [Finite 0; NaN] = Ok c ∧ well_formed c = true.
Proof.
  eexists. split; [reflexivity|].
  apply (prepare_state_well_formed [Finite 0; NaN]). reflexivity.
Defined.



(** A measurement into a region that was never declared is rejected. *)
Example undeclared_readout_not_well_formed :
  well_formed (mkProgram [H 0; MEASURE 0 (ro_bit 0)] 1) = false.
Proof. reflexivity. Qed.

(** CRY applied before its definition is rejected. *)
Example undefined_gate_not_well_formed :
  well_formed (mkProgram [CRY NaN 0 2; DefGateInstr cry_definition] 1) = false.
Proof. reflexivity. Qed.

End WellFormed.

(** ** The session, continued *)

Section SessionMore.

Implicit Types (qc : QuantumComputer) (w : world)
  (measures : list (list bool)).

Lemma bind_result {A B} (c : Py A) (k : A → Py B) w w' (r : result A) :
  c w = (w', r) →
  (c ≫= k) w = match r with
               | Ok a => k a w'
               | Raise e => (w', Raise e)
               end.
Proof. intros Hc. unfold mbind, Py_bind. rewrite Hc. reflexivity. Qed.

Lemma session_calls_eq qc w : session qc w = session_calls qc w.
Proof.
  unfold session, session_calls. rewrite !bind_init.
  rewrite test_angle0_eq, test_angle1_eq, training_angle_eq.
  reflexivity.
Qed.

Lemma postselect_np_counted_returns measures w :
  Forall (λ row, row ≠ []) measures →
  Exists (λ row, Is_true (ancilla_bit_0 row)) measures →
  Z.of_nat (length measures) < 2 ^ 63 →
  postselect_np (count_outcomes measures) w
  = (mkWorld (qvm_server_alive w) (quilc_server_alive w)
       (stdout w ++ shot_report measures), Ok tt).
Proof.
  intros Hrows Hex Hrange.
  rewrite (postselect_np_on_shots_eq measures w Hrows Hrange).
  unfold postselect_on_shots.
  apply shots_where_pos in Hex.
  assert (Hle : shots_where ancilla_bit_0 measures
                ≤ Z.of_nat (length measures)).
  { unfold shots_where. apply inj_le, length_filter. }
  destruct (Z.eqb_spec (Z.of_nat (length measures)) 0); [lia|].
  destruct (Z.eqb_spec (shots_where ancilla_bit_0 measures) 0); [lia|].
  reflexivity.
Qed.

Lemma py_for_lines {B} (l : list B) (body : B → Py unit) w w1 :
  prints_a_line_or_raises body →
  py_for l body w = (w1, Ok tt) →
  ∃ rows,
    length rows = length l
    ∧ w1 = mkWorld (qvm_server_alive w) (quilc_server_alive w)
             (stdout w ++ (PrintLine <$> rows)).
Proof.
  intros Hbody. revert w. induction l as [|b l IH]; intros w Hrun.
  - injection Hrun as <-. exists []. split; [reflexivity|].
    simpl. rewrite app_nil_r. destruct w; reflexivity.
  - simpl in Hrun. unfold mbind, Py_bind in Hrun.
    destruct (Hbody b w) as [[e Hb]|[line Hb]]; rewrite Hb in Hrun;
      [discriminate|].
    simpl in Hrun. apply IH in Hrun as (rows & Hlen & ->).
    exists (line :: rows). split; [simpl; congruence|].
    simpl. rewrite <- app_assoc. reflexivity.
Qed.

Lemma table_row_step (wfn_str : list string) :
  prints_a_line_or_raises (λ i,
    chunk ← lift (list_getitem wfn_str i);
    a ← lift (str_split chunk ")|");
    v ← lift (list_getitem val i);
    a1 ← lift (list_getitem a 1);
    a0 ← lift (list_getitem a 0);
    print_args [v; "  "; a1; "  "; str_slice_from a0 (str_find a0 "(" + 1)]).
Proof.
  intros i w. unfold mbind, Py_bind, lift.
  destruct (list_getitem wfn_str i) as [chunk|e]; [|left; eauto].
  destruct (str_split chunk ")|") as [a|e]; [|left; eauto].
  destruct (list_getitem val i) as [v|e]; [|left; eauto].
  destruct (list_getitem a 1) as [a1|e]; [|left; eauto].
  destruct (list_getitem a 0) as [a0|e]; [|left; eauto].
  right. eexists. reflexivity.
Qed.

(** When the loop of cell 18 completes, it has printed the two header
    lines and then one line for each piece of the wavefunction string
    that ends in a [>]. *)
Lemma print_wavefunction_lines (wfn : string) w w1 :
  print_wavefunction wfn w = (w1, Ok tt) →
  ∃ pieces rows,
    str_split wfn ">" = Ok pieces
    ∧ length rows = (length pieces - 1)%nat
    ∧ w1 = mkWorld (qvm_server_alive w) (quilc_server_alive w)
             (stdout w ++ table_header ++ (PrintLine <$> rows)).
Proof.
  unfold print_wavefunction. intros Hrun.
  destruct (str_split wfn ">") as [pieces|e] eqn:Hsplit; [|discriminate].
  rewrite bind_lift_Ok in Hrun.
  unfold mbind at 1 2, Py_bind at 1 2 in Hrun. simpl in Hrun.
  apply py_for_lines in Hrun as (rows & Hlen & ->);
    [|apply table_row_step].
  exists pieces, rows. split; [reflexivity|].
  split; [rewrite Hlen; apply length_seq|].
  simpl. rewrite <- !app_assoc. reflexivity.
Qed.

(** The session's own computations other than the table of cell 18 and
    the two post-selections never raise, and they fix what the
    simulator is asked: the machine, the drawing and the wavefunction
    of the state preparation for the first test vector, the drawing of
    the kernel, and then, for each of the two test vectors, to compile
    and run the classifier circuit with 1024 shots. *)
Theorem session_backend_calls qc w : session qc w = session_calls qc w.
Proof. exact (session_calls_eq qc w). Qed.

(** When the simulator answers every call, the loop of cell 18 completes
    on the wavefunction string, and each of the two runs returns
    non-empty rows of which one at least has first bit 0, the session
    returns; it has printed the two header lines of cell 18, one line
    for each term of the wavefunction, the three statistics of the
    first run and then those of the second; and it has terminated both
    servers. *)
Theorem session_success qc w (wfn : string)
    (executable0 executable1 : Program)
    (measures0 measures1 : list (list bool)) :
  get_qc qc = Ok tt →
  plot_circuit qc (state_preparation (-0.549)) = Ok tt →
  wavefunction qc (state_preparation (-0.549)) = Ok wfn →
  (print_wavefunction wfn (mkWorld true true (stdout w))).2 = Ok tt →
  plot_kernel qc = Ok tt →
  qc_compile qc (classifier_circuit (-0.549)) = Ok executable0 →
  qc_run qc executable0 = Ok measures0 →
  qc_compile qc (classifier_circuit 0.053) = Ok executable1 →
  qc_run qc executable1 = Ok measures1 →
  Forall (λ row, row ≠ []) measures0 →
  Forall (λ row, row ≠ []) measures1 →
  Exists (λ row, Is_true (ancilla_bit_0 row)) measures0 →
  Exists (λ row, Is_true (ancilla_bit_0 row)) measures1 →
  Z.of_nat (length measures0) < 2 ^ 63 →
  Z.of_nat (length measures1) < 2 ^ 63 →
  ∃ pieces rows,
    str_split wfn ">" = Ok pieces
    ∧ length rows = (length pieces - 1)%nat
    ∧ session qc w
      = (mkWorld false false
           (stdout w ++ table_header ++ (PrintLine <$> rows)
            ++ shot_report measures0 ++ shot_report measures1),
         Ok tt).
Proof.
  intros Hqc Hplot Hwave Htable Hkernel Hcompile0 Hrun0 Hcompile1 Hrun1
    Hrows0 Hrows1 Hex0 Hex1 Hrange0 Hrange1.
  destruct (print_wavefunction wfn (mkWorld true true (stdout w)))
    as [w1 r] eqn:Hprint.
  simpl in Htable. subst r.
  destruct (print_wavefunction_lines wfn _ w1 Hprint)
    as (pieces & rows & Hsplit & Hlen & ->).
  exists pieces, rows. split; [exact Hsplit|]. split; [exact Hlen|].
  rewrite session_calls_eq. unfold session_calls. rewrite bind_init.
  rewrite Hqc, bind_lift_Ok, Hplot, bind_lift_Ok, Hwave, bind_lift_Ok.
  rewrite (bind_result _ _ _ _ _ Hprint).
  rewrite Hkernel, bind_lift_Ok.
  rewrite Hcompile0, bind_lift_Ok, Hrun0, bind_lift_Ok.
  rewrite (bind_result _ _ _ _ _
             (postselect_np_counted_returns measures0 _
                Hrows0 Hex0 Hrange0)).
  rewrite Hcompile1, bind_lift_Ok, Hrun1, bind_lift_Ok.
  rewrite (bind_result _ _ _ _ _
             (postselect_np_counted_returns measures1 _
                Hrows1 Hex1 Hrange1)).
  cbn [qvm_server_alive quilc_server_alive stdout].
  rewrite <- !app_assoc. reflexivity.
Qed.

(** The rows that [two_shot_qc] returns for every program. *)
Lemma two_shot_rows :
  Forall (λ row : list bool, row ≠ [])
    [[false; false; false; true]; [false; true; false; false]]
  ∧ Exists (λ row, Is_true (ancilla_bit_0 row))
      [[false; false; false; true]; [false; true; false; false]].
Proof.
  split; [repeat constructor; discriminate | left; exact I].
Defined.

Lemma session_success_two_shot :
  ∃ pieces rows,
    str_split two_term_wavefunction ">" = Ok pieces
    ∧ length rows = (length pieces - 1)%nat
    ∧ session two_shot_qc stopped_world
      = (mkWorld false false
           (stdout stopped_world ++ table_header ++ (PrintLine <$> rows)
            ++ shot_report
                 [[false; false; false; true]; [false; true; false; false]]
            ++ shot_report
                 [[false; false; false; true]; [false; true; false; false]]),
         Ok tt).
Proof.
  apply (session_success two_shot_qc stopped_world two_term_wavefunction
           (classifier_circuit (-0.549)) (classifier_circuit 0.053)
           [[false; false; false; true]; [false; true; false; false]]
           [[false; false; false; true]; [false; true; false; false]]);
    try reflexivity;
    first [ exact (proj1 two_shot_rows) | exact (proj2 two_shot_rows) ].
Defined.

(** With [two_shot_qc] the session prints the table of the two terms and
    then the statistics of the two runs. *)
Example session_two_shot_output :
  session two_shot_qc stopped_world
  = (mkWorld false false
       (two_term_table
        ++ shot_report
             [[false; false; false; true]; [false; true; false; false]]
        ++ shot_report
             [[false; false; false; true]; [false; true; false; false]]),
     Ok tt).
Proof. rewrite session_calls_eq. reflexivity. Qed.

End SessionMore.
